(** * go-bank: the authenticated account-access subsystem

    A shallow embedding of [types.go] and [api.go]: the account record and
    its factory, password hashing and verification, token issuance and
    validation, the JWT access guard, the handlers and the route table.

    Conventions of the embedding.
    - Go's [int] and [int64] are [Z]; [float64] is the exact rational a
      finite float denotes (type [Q]); the rounding of an integer to a
      float64 is written out in [round53].
    - A Go [(value, error)] result is [result]; a handler that may panic
      returns an [outcome].
    - State is threaded explicitly: a handler takes the store and the
      response writer and returns both.
    - The libraries the program calls (strconv, bcrypt, golang-jwt v4,
      net/http, gorilla/mux, encoding/json) are modelled in modules of
      their own name, as far as the program uses them.
    - Three library primitives stay abstract (class [Primitives]): the
      Blowfish digest inside bcrypt, the keyed hash inside the HMAC
      signing methods and the base64url-of-JSON segment encoder of the
      token library.  Nothing is assumed about them. *)

From Stdlib Require Import ZArith QArith Qround Lia Ascii String.
From stdpp Require Import base option gmap strings list pretty.

Set Warnings "-register-all".
Open Scope Z_scope.

(** ** Go values *)

(** A dynamically typed value ([interface{}] / [any]), with the dynamic
    types that occur in claim sets and token headers. *)
Inductive any : Type :=
  | Nil
  | Bool (b : bool)
  | Int (n : Z)
  | Int64 (n : Z)
  | Float64 (f : Q)
  | Str (s : string)
  | Slice (l : list any)
  | Map (m : gmap string any).

(** Errors carry their message. *)
Definition error := string.

Inductive result (A : Type) : Type :=
  | Ok (a : A)
  | Err (e : error).
Arguments Ok {A} a.
Arguments Err {A} e.

(** What a handler invocation ends in: a normal return, or a run-time
    panic (net/http recovers it and aborts the response). *)
Inductive outcome (A : Type) : Type :=
  | Returned (a : A)
  | Panicked (msg : string).
Arguments Returned {A} a.
Arguments Panicked {A} msg.

(** *** Numeric conversions *)

(** The float64 nearest to the integer [n] (round to nearest, ties to
    even, 53 bits of precision), as an integer.  This is both the
    conversion [float64(n)] and what [encoding/json] yields when it decodes
    the decimal literal of [n] into an [interface{}]. *)
Definition round53 (n : Z) : Z :=
  let a := Z.abs n in
  if a <? 2 ^ 53 then n
  else
    let e := Z.log2 a - 52 in
    let q := Z.shiftr a e in
    let r := Z.land a (Z.ones e) in
    let half := Z.shiftl 1 (e - 1) in
    let q' := if r <? half then q
              else if half <? r then q + 1
              else if Z.even q then q else q + 1 in
    Z.sgn n * Z.shiftl q' e.

Definition float64_of_int (n : Z) : Q := inject_Z (round53 n).

Definition min_int64 : Z := - 2 ^ 63.
Definition max_int64 : Z := 2 ^ 63 - 1.

(** The conversion [int64(f)]: truncation toward zero.  Outside the int64
    range the language leaves the result to the implementation; amd64
    yields the minimum int64. *)
Definition int64_of_float64 (f : Q) : Z :=
  let t := Z.quot (Qnum f) (Z.pos (Qden f)) in
  if (min_int64 <=? t) && (t <=? max_int64) then t else min_int64.

(** What [json.Unmarshal] into an [interface{}] recovers from
    [json.Marshal v]: every number comes back as a float64. *)
Fixpoint json_roundtrip (v : any) : any :=
  match v with
  | Int n | Int64 n => Float64 (float64_of_int n)
  | Slice l => Slice (json_roundtrip <$> l)
  | Map m => Map (json_roundtrip <$> m)
  | _ => v
  end.

(** ** Abstract primitives *)

Inductive Hash : Type := SHA256 | SHA384 | SHA512.

Class Primitives : Type := {
  (** [hmac h key message]: the MAC that crypto/hmac computes. *)
  hmac : Hash -> string -> string -> string;
  (** base64url (no padding) of the JSON text of a map. *)
  EncodeSegment : gmap string any -> string;
  (** [eks_blowfish cost salt stream]: the encoded digest bcrypt derives
      from the salt and the 72 bytes the Blowfish key schedule reads. *)
  eks_blowfish : Z -> string -> list ascii -> string
}.

(** ** strconv *)

Module strconv.

Definition digit (c : ascii) : option Z :=
  let n := Z.of_nat (nat_of_ascii c) in
  if (48 <=? n) && (n <=? 57) then Some (n - 48) else None.

Fixpoint digits (s : string) (acc : Z) : option Z :=
  match s with
  | EmptyString => Some acc
  | String c s' =>
      match digit c with
      | Some d => digits s' (10 * acc + d)
      | None => None
      end
  end.

(** [Atoi]: an optional sign, then at least one decimal digit; the value
    must fit an [int] (64 bits). *)
Definition Atoi (s : string) : result Z :=
  let '(neg, body) :=
    match s with
    | String "-" r => (true, r)
    | String "+" r => (false, r)
    | _ => (false, s)
    end in
  match body with
  | EmptyString => Err ("strconv.Atoi: parsing " +:+ s +:+ ": invalid syntax")
  | _ =>
      match digits body 0 with
      | None => Err ("strconv.Atoi: parsing " +:+ s +:+ ": invalid syntax")
      | Some n =>
          let v := if neg : bool then - n else n in
          if (min_int64 <=? v) && (v <=? max_int64) then Ok v
          else Err ("strconv.Atoi: parsing " +:+ s +:+ ": value out of range")
      end
  end.

End strconv.

(** ** golang.org/x/crypto/bcrypt *)

Module bcrypt.

Definition DefaultCost : Z := 10.
Definition MinCost : Z := 4.
Definition MaxCost : Z := 31.

Definition ErrPasswordTooLong : error :=
  "bcrypt: password length exceeds 72 bytes".
Definition ErrHashTooShort : error :=
  "crypto/bcrypt: hashedSecret too short to be a bcrypted password".
Definition ErrMismatchedHashAndPassword : error :=
  "crypto/bcrypt: hashedPassword is not the hash of the given password".

(** A bcrypt string, read the way [newFromHash] reads it: either a text
    it rejects, or version 2a with a cost, the encoded salt and the
    encoded digest. *)
Inductive hashed : Type :=
  | NotAHash (s : string)
  | Hashed (cost : Z) (salt : string) (hash : string).

(** The Blowfish key schedule reads 18 words, 72 bytes, from the key,
    starting over at its end. *)
Definition key_stream (key : list ascii) : list ascii :=
  take 72 (mjoin (replicate 72 key)).

Section with_primitives.
Context {prims : Primitives}.

(** [bcrypt(password, cost, salt)]: the key is the password followed
    by a NUL byte. *)
Definition bcrypt (password : string) (cost : Z) (salt : string) : string :=
  eks_blowfish cost salt
    (key_stream (list_ascii_of_string password ++ [Ascii.zero])).

(** [salt] is the encoded form of the 16 bytes read from crypto/rand. *)
Definition GenerateFromPassword (salt : string) (password : string)
    (cost : Z) : result hashed :=
  if (72 <? Z.of_nat (String.length password)) then Err ErrPasswordTooLong
  else
    let cost := if cost <? MinCost then DefaultCost else cost in
    if MaxCost <? cost then Err "crypto/bcrypt: cost out of range"
    else Ok (Hashed cost salt (bcrypt password cost salt)).

(** [None] is the nil error. *)
Definition CompareHashAndPassword (hashedPassword : hashed)
    (password : string) : option error :=
  match hashedPassword with
  | NotAHash _ => Some ErrHashTooShort (* or another error of newFromHash *)
  | Hashed cost salt hash =>
      if String.eqb hash (bcrypt password cost salt) then None
      else Some ErrMismatchedHashAndPassword
  end.

End with_primitives.

End bcrypt.

(** ** github.com/golang-jwt/jwt/v4 *)

Module jwt.

(** The registered signing methods. *)
Inductive SigningMethod : Type :=
  | HS256 | HS384 | HS512
  | RS256 | RS384 | RS512
  | PS256 | PS384 | PS512
  | ES256 | ES384 | ES512
  | EdDSA
  | none.

Definition Alg (m : SigningMethod) : string :=
  match m with
  | HS256 => "HS256" | HS384 => "HS384" | HS512 => "HS512"
  | RS256 => "RS256" | RS384 => "RS384" | RS512 => "RS512"
  | PS256 => "PS256" | PS384 => "PS384" | PS512 => "PS512"
  | ES256 => "ES256" | ES384 => "ES384" | ES512 => "ES512"
  | EdDSA => "EdDSA"
  | none => "none"
  end.

Definition signingMethods : list SigningMethod :=
  [HS256; HS384; HS512; RS256; RS384; RS512; PS256; PS384; PS512;
   ES256; ES384; ES512; EdDSA; none].

Definition GetSigningMethod (alg : string) : option SigningMethod :=
  List.find (fun m => String.eqb (Alg m) alg) signingMethods.

(** The type assertion of a method to a pointer to [SigningMethodHMAC]:
    the hash of an HMAC method, [None] for every other method. *)
Definition SigningMethodHMAC (m : SigningMethod) : option Hash :=
  match m with
  | HS256 => Some SHA256
  | HS384 => Some SHA384
  | HS512 => Some SHA512
  | _ => None
  end.

(** [MapClaims] is [map[string]interface{}]. *)
Abbreviation MapClaims := (gmap string any).

(** A token string, read the way [Parser.ParseUnverified] reads it: the
    text of the first two segments (the signature is computed over them),
    the maps their JSON decodes to, and the bytes the third segment
    decodes to ([None] when it is not base64url). *)
Record compact : Type := {
  seg_header : string;
  seg_claims : string;
  dec_header : gmap string any;
  dec_claims : gmap string any;
  dec_signature : option string
}.

(** [Text s]: a string that is not three dot-separated segments of which
    the first two decode to JSON objects; the empty string is one. *)
Inductive tokenString : Type :=
  | Text (s : string)
  | Compact (c : compact).

Record Token : Type := {
  Raw : tokenString;
  Method : option SigningMethod;
  Header : gmap string any;
  Claims : MapClaims;
  Signature : option string;
  Valid : bool
}.

(** The bits of [ValidationError.Errors]. *)
Definition ValidationErrorMalformed : Z := Z.shiftl 1 0.
Definition ValidationErrorUnverifiable : Z := Z.shiftl 1 1.
Definition ValidationErrorSignatureInvalid : Z := Z.shiftl 1 2.
Definition ValidationErrorExpired : Z := Z.shiftl 1 4.
Definition ValidationErrorIssuedAt : Z := Z.shiftl 1 5.
Definition ValidationErrorNotValidYet : Z := Z.shiftl 1 7.

Record ValidationError : Type := {
  Inner : option error;
  Errors : Z
}.

Definition NewValidationError (text : string) (flags : Z) : ValidationError :=
  {| Inner := Some text; Errors := flags |}.

(** [Keyfunc]: the key to verify a token with. *)
Definition Keyfunc := Token -> result string.

(** *** Registered time claims of a [MapClaims]

    [now] is [TimeFunc().Unix()].  A claim that is absent, or the number
    0, passes; a number is cut to whole seconds; a value of any other
    dynamic type fails. *)

Definition VerifyExpiresAt (m : MapClaims) (now : Z) : bool :=
  match m !! "exp" with
  | None => true
  | Some (Float64 f) => if Qeq_bool f 0 then true else now <? Qfloor f
  | Some _ => false
  end.

Definition VerifyIssuedAt (m : MapClaims) (now : Z) : bool :=
  match m !! "iat" with
  | None => true
  | Some (Float64 f) => if Qeq_bool f 0 then true else Qfloor f <=? now
  | Some _ => false
  end.

Definition VerifyNotBefore (m : MapClaims) (now : Z) : bool :=
  match m !! "nbf" with
  | None => true
  | Some (Float64 f) => if Qeq_bool f 0 then true else Qfloor f <=? now
  | Some _ => false
  end.

(** [MapClaims.Valid]: the three checks, each adding its bit. *)
Definition MapClaims_Valid (m : MapClaims) (now : Z) : ValidationError :=
  let v0 := {| Inner := None; Errors := 0 |} in
  let v1 := if VerifyExpiresAt m now then v0
            else {| Inner := Some "Token is expired";
                    Errors := Z.lor (Errors v0) ValidationErrorExpired |} in
  let v2 := if VerifyIssuedAt m now then v1
            else {| Inner := Some "Token used before issued";
                    Errors := Z.lor (Errors v1) ValidationErrorIssuedAt |} in
  if VerifyNotBefore m now then v2
  else {| Inner := Some "Token is not valid yet";
          Errors := Z.lor (Errors v2) ValidationErrorNotValidYet |}.

Section with_primitives.
Context {prims : Primitives}.

Definition NewWithClaims (method : SigningMethod) (claims : MapClaims) : Token :=
  {| Raw := Text "";
     Method := Some method;
     Header := {[ "typ" := Str "JWT"; "alg" := Str (Alg method) ]};
     Claims := claims;
     Signature := None;
     Valid := false |}.

(** [Method.Sign(signingString, key)] with a [[]byte] key: the HMAC
    methods compute the MAC, every other method refuses the key. *)
Definition Sign (m : SigningMethod) (signingString : string) (key : string)
    : result string :=
  match SigningMethodHMAC m with
  | Some h => Ok (hmac h key signingString)
  | None => Err "key is of invalid type"
  end.

(** [Method.Verify(signingString, signature, key)] with a [[]byte] key;
    [None] is the nil error. *)
Definition Verify (m : SigningMethod) (signingString : string)
    (signature : option string) (key : string) : option error :=
  match SigningMethodHMAC m with
  | Some h =>
      match signature with
      | None => Some "illegal base64 data"
      | Some sig =>
          if String.eqb sig (hmac h key signingString) then None
          else Some "signature is invalid"
      end
  | None => Some "key is of invalid type"
  end.

Definition signing_string (seg0 seg1 : string) : string :=
  seg0 +:+ "." +:+ seg1.

(** [Token.SignedString(key)].  The string it returns is given in the
    form the parser will read it in: the claims and the header decode to
    what JSON keeps of them. *)
Definition SignedString (t : Token) (key : string) : result tokenString :=
  let seg0 := EncodeSegment (Header t) in
  let seg1 := EncodeSegment (Claims t) in
  match Method t with
  | None => Err "signing method is nil"
  | Some m =>
      match Sign m (signing_string seg0 seg1) key with
      | Err e => Err e
      | Ok sig =>
          Ok (Compact {| seg_header := seg0;
                         seg_claims := seg1;
                         dec_header := json_roundtrip <$> Header t;
                         dec_claims := json_roundtrip <$> Claims t;
                         dec_signature := Some sig |})
      end
  end.

(** [Parser.ParseUnverified]: split and decode, then look the method up. *)
Definition ParseUnverified (s : tokenString)
    : option Token * option ValidationError :=
  match s with
  | Text _ =>
      (None, Some (NewValidationError "token is malformed" ValidationErrorMalformed))
  | Compact c =>
      let token := {| Raw := s; Method := None; Header := dec_header c;
                      Claims := dec_claims c; Signature := None;
                      Valid := false |} in
      match dec_header c !! "alg" with
      | Some (Str method) =>
          match GetSigningMethod method with
          | Some m =>
              (Some {| Raw := s; Method := Some m; Header := dec_header c;
                       Claims := dec_claims c; Signature := None;
                       Valid := false |}, None)
          | None =>
              (Some token,
               Some (NewValidationError "signing method (alg) is unavailable."
                       ValidationErrorUnverifiable))
          end
      | _ =>
          (Some token,
           Some (NewValidationError "signing method (alg) is unspecified."
                   ValidationErrorUnverifiable))
      end
  end.

(** [jwt.Parse(tokenString, keyFunc)], that is [ParseWithClaims] of the
    default parser into a [MapClaims]: parse, ask for the key, validate
    the registered claims, verify the signature.  The token is marked
    valid, and the error is nil, only when no error bit is set. *)
Definition Parse (now : Z) (s : tokenString) (keyFunc : Keyfunc)
    : option Token * option ValidationError :=
  match ParseUnverified s with
  | (token, Some err) => (token, Some err)
  | (None, None) => (None, None)
  | (Some token, None) =>
      match keyFunc token with
      | Err e =>
          (Some token,
           Some {| Inner := Some e; Errors := ValidationErrorUnverifiable |})
      | Ok key =>
          let vErr := MapClaims_Valid (Claims token) now in
          let '(seg0, seg1, sig) :=
            match s with
            | Compact c => (seg_header c, seg_claims c, dec_signature c)
            | Text _ => (""%string, ""%string, None)
            end in
          let token := {| Raw := Raw token; Method := Method token;
                          Header := Header token; Claims := Claims token;
                          Signature := sig; Valid := false |} in
          let vErr :=
            match Method token with
            | None => vErr
            | Some m =>
                match Verify m (signing_string seg0 seg1) sig key with
                | None => vErr
                | Some e =>
                    {| Inner := Some e;
                       Errors := Z.lor (Errors vErr)
                                   ValidationErrorSignatureInvalid |}
                end
            end in
          if Errors vErr =? 0 then
            (Some {| Raw := Raw token; Method := Method token;
                     Header := Header token; Claims := Claims token;
                     Signature := sig; Valid := true |}, None)
          else (Some token, Some vErr)
      end
  end.

End with_primitives.

End jwt.

(** ** encoding/json: bodies as syntax trees *)

Inductive json : Type :=
  | JNull
  | JBool (b : bool)
  | JInt (n : Z)                 (* an integer literal *)
  | JReal (q : Q)                (* a literal with a fraction or an exponent *)
  | JString (s : string)
  | JTime (t : Z)                (* the RFC 3339 string of an instant *)
  | JToken (t : jwt.tokenString) (* the string of a token *)
  | JArray (l : list json)
  | JObject (fields : list (string * json)).

(** Decoding one JSON value into a field of a struct: [null] leaves the
    field as it is, a value of the wrong kind is an error. *)
Definition decode_string (j : json) (old : string) : result string :=
  match j with
  | JString s => Ok s
  | JNull => Ok old
  | _ => Err "json: cannot unmarshal value into Go struct field of type string"
  end.

Definition decode_int (j : json) (old : Z) : result Z :=
  match j with
  | JInt n =>
      if (min_int64 <=? n) && (n <=? max_int64) then Ok n
      else Err "json: cannot unmarshal number into Go struct field of type int"
  | JNull => Ok old
  | _ => Err "json: cannot unmarshal value into Go struct field of type int"
  end.

(** Decoding an object into a struct: the members are taken in order, a
    later member of the same name overwrites an earlier one, unknown
    names are skipped.  (Names are compared as they are written.) *)
Fixpoint decode_members {A : Type}
    (setter : string -> json -> A -> option (result A))
    (fields : list (string * json)) (a : A) : result A :=
  match fields with
  | [] => Ok a
  | (k, v) :: rest =>
      match setter k v a with
      | None => decode_members setter rest a
      | Some (Ok a') => decode_members setter rest a'
      | Some (Err e) => Err e
      end
  end.

(** [json.NewDecoder(body).Decode(&a)]: [None] is a body that holds no
    JSON text. *)
Definition Decode {A : Type} (setter : string -> json -> A -> option (result A))
    (body : option json) (zero : A) : result A :=
  match body with
  | None => Err "EOF"
  | Some JNull => Ok zero
  | Some (JObject fields) => decode_members setter fields zero
  | Some _ => Err "json: cannot unmarshal value into Go value of struct type"
  end.

(** ** os, net/http, gorilla/mux *)

Module os.

(** [os.Getenv]: the empty string for a variable that is not set. *)
Definition Getenv (environ : gmap string string) (key : string) : string :=
  default ""%string (environ !! key).

End os.

Module http.

Definition StatusOK : Z := 200.
Definition StatusBadRequest : Z := 400.
Definition StatusForbidden : Z := 403.
Definition StatusNotFound : Z := 404.

(** A request as the handlers see it.  [Path] is the URL path as its list
    of segments; [Vars] are the route variables the router has bound;
    the header values are token strings, the only header the program
    reads being the token's. *)
Record Request : Type := {
  Method : string;
  Path : list string;
  Vars : gmap string string;
  Header : gmap string jwt.tokenString;
  Body : option json
}.

(** [r.Header.Get(key)]: the empty string when the header is absent. *)
Definition Header_Get (h : gmap string jwt.tokenString) (key : string)
    : jwt.tokenString :=
  default (jwt.Text "") (h !! key).

(** What has been written to a response: the header map, the status line
    once it is written, the values encoded into the body so far. *)
Record ResponseWriter : Type := {
  header : list (string * string);
  status : option Z;
  body : list json
}.

Definition Header_Add (w : ResponseWriter) (k v : string) : ResponseWriter :=
  {| header := header w ++ [(k, v)]; status := status w; body := body w |}.

(** Only the first [WriteHeader] counts. *)
Definition WriteHeader (w : ResponseWriter) (code : Z) : ResponseWriter :=
  match status w with
  | Some _ => w
  | None => {| header := header w; status := Some code; body := body w |}
  end.

(** [json.NewEncoder(w).Encode(v)]: a write, which sends status 200 first
    when no status was written. *)
Definition Encode (w : ResponseWriter) (v : json) : ResponseWriter :=
  let w := WriteHeader w StatusOK in
  {| header := header w; status := status w; body := body w ++ [v] |}.

Definition blank : ResponseWriter :=
  {| header := []; status := None; body := [] |}.

End http.

(** ** types.go *)

(** An instant, in seconds since the Unix epoch. *)
Definition Time := Z.

Record LoginResponse : Type := {
  lr_Number : Z;
  lr_Token : jwt.tokenString
}.

Record LoginRequest : Type := {
  lq_Number : Z;
  lq_Password : string
}.

Record TransferRequest : Type := {
  ToAccount : Z;
  Amount : Z
}.

Record CreateAccountRequest : Type := {
  cr_FirstName : string;
  cr_LastName : string;
  cr_Password : string
}.

(** [EncryptedPassword] is the stored bcrypt string, [Token] of a
    [LoginResponse] the token string. *)
Record Account : Type := {
  ID : Z;
  FirstName : string;
  LastName : string;
  Number : Z;
  EncryptedPassword : bcrypt.hashed;
  Balance : Z;
  CreatedAt : Time
}.

(** The struct tags: how each type is written to JSON.  The field tagged
    [json:"-"], [EncryptedPassword], is left out. *)
Definition Account_json (a : Account) : json :=
  JObject [("id", JInt (ID a));
           ("firstName", JString (FirstName a));
           ("lastName", JString (LastName a));
           ("number", JInt (Number a));
           ("balance", JInt (Balance a));
           ("createdAt", JTime (CreatedAt a))]%string.

Definition TransferRequest_json (t : TransferRequest) : json :=
  JObject [("toAccount", JInt (ToAccount t)); ("amount", JInt (Amount t))]%string.

Definition LoginResponse_json (l : LoginResponse) : json :=
  JObject [("number", JInt (lr_Number l)); ("token", JToken (lr_Token l))]%string.

(** How each request type is read from JSON. *)
Definition LoginRequest_setter (k : string) (v : json) (r : LoginRequest)
    : option (result LoginRequest) :=
  if String.eqb k "number" then
    Some (match decode_int v (lq_Number r) with
          | Ok n => Ok {| lq_Number := n; lq_Password := lq_Password r |}
          | Err e => Err e
          end)
  else if String.eqb k "password" then
    Some (match decode_string v (lq_Password r) with
          | Ok s => Ok {| lq_Number := lq_Number r; lq_Password := s |}
          | Err e => Err e
          end)
  else None.

Definition TransferRequest_setter (k : string) (v : json) (r : TransferRequest)
    : option (result TransferRequest) :=
  if String.eqb k "toAccount" then
    Some (match decode_int v (ToAccount r) with
          | Ok n => Ok {| ToAccount := n; Amount := Amount r |}
          | Err e => Err e
          end)
  else if String.eqb k "amount" then
    Some (match decode_int v (Amount r) with
          | Ok n => Ok {| ToAccount := ToAccount r; Amount := n |}
          | Err e => Err e
          end)
  else None.

Definition CreateAccountRequest_setter (k : string) (v : json)
    (r : CreateAccountRequest) : option (result CreateAccountRequest) :=
  if String.eqb k "firstName" then
    Some (match decode_string v (cr_FirstName r) with
          | Ok s => Ok {| cr_FirstName := s; cr_LastName := cr_LastName r;
                          cr_Password := cr_Password r |}
          | Err e => Err e
          end)
  else if String.eqb k "lastName" then
    Some (match decode_string v (cr_LastName r) with
          | Ok s => Ok {| cr_FirstName := cr_FirstName r; cr_LastName := s;
                          cr_Password := cr_Password r |}
          | Err e => Err e
          end)
  else if String.eqb k "password" then
    Some (match decode_string v (cr_Password r) with
          | Ok s => Ok {| cr_FirstName := cr_FirstName r;
                          cr_LastName := cr_LastName r; cr_Password := s |}
          | Err e => Err e
          end)
  else None.

(** What a request brings with it from outside the program: the process
    environment, the clock, and the two random sources [NewAccount] draws
    from (crypto/rand for the salt, math/rand for the account number). *)
Record Ambient : Type := {
  environ : gmap string string;
  now : Time;
  salt : string;
  rnd : Z
}.

(** [rand.Intn(n)] on the draw [src]. *)
Definition Intn (src : Z) (n : Z) : Z := src mod n.

Section types_go.
Context {prims : Primitives}.

Definition ValidPassword (a : Account) (pw : string) : bool :=
  match bcrypt.CompareHashAndPassword (EncryptedPassword a) pw with
  | None => true
  | Some _ => false
  end.

Definition NewAccount (amb : Ambient) (firstName lastName password : string)
    : result Account :=
  match bcrypt.GenerateFromPassword (salt amb) password bcrypt.DefaultCost with
  | Err err => Err err
  | Ok encpw =>
      Ok {| ID := 0;
            FirstName := firstName;
            LastName := lastName;
            EncryptedPassword := encpw;
            Number := Intn (rnd amb) 1000000;
            Balance := 0;
            CreatedAt := now amb |}
  end.

End types_go.

(** ** The account store *)

(** Modelled from the spec: the [Storage] interface is declared in
    storage.go, which is not among the sources; its operations are those
    of the spec's boundary with the Account Store, each returning a value
    or an error.  An operation that changes the store returns the new
    store. *)
Class Storage (S : Type) : Type := {
  CreateAccount : S -> Account -> result S;
  DeleteAccount : S -> Z -> result S;
  GetAccounts : S -> result (list Account);
  GetAccountByID : S -> Z -> result Account;
  GetAccountByNumber : S -> Z -> result Account
}.

(** ** api.go *)

Record ApiError : Type := { Error : string }.

Definition ApiError_json (e : ApiError) : json :=
  JObject [("error"%string, JString (Error e))].

Section api_go.
Context {prims : Primitives} {S : Type} {store : Storage S}.

(** A handler runs on the store and the response writer and leaves both
    behind, unless it panics. *)
Definition HandlerFunc : Type :=
  Ambient -> S -> http.ResponseWriter -> http.Request ->
  outcome (S * http.ResponseWriter).

(** An [apiFunc] also returns an error ([None] is nil). *)
Definition apiFunc : Type :=
  Ambient -> S -> http.ResponseWriter -> http.Request ->
  S * http.ResponseWriter * option error.

Definition WriteJSON (w : http.ResponseWriter) (status : Z) (v : json)
    : http.ResponseWriter * option error :=
  let w := http.Header_Add w "Content-Type" "application/json" in
  let w := http.WriteHeader w status in
  (http.Encode w v, None).

Definition createJWT (amb : Ambient) (account : Account)
    : result jwt.tokenString :=
  let claims : jwt.MapClaims :=
    {[ "expiresAt" := Int 15000; "accountNumber" := Int64 (Number account) ]} in
  let secret := os.Getenv (environ amb) "JWT_SECRET" in
  let token := jwt.NewWithClaims jwt.HS256 claims in
  jwt.SignedString token secret.

Definition permissionDenied (w : http.ResponseWriter) : http.ResponseWriter :=
  fst (WriteJSON w http.StatusForbidden
         (ApiError_json {| Error := "permission denied" |})).

(** The text of [%v] for the header's [alg] entry. *)
Definition alg_text (h : gmap string any) : string :=
  match h !! "alg" with
  | Some (Str s) => s
  | _ => "<nil>"
  end.

Definition validateJWT (amb : Ambient) (tokenString : jwt.tokenString)
    : option jwt.Token * option jwt.ValidationError :=
  let secret := os.Getenv (environ amb) "JWT_SECRET" in
  jwt.Parse (now amb) tokenString
    (fun token =>
       match jwt.Method token ≫= jwt.SigningMethodHMAC with
       | None =>
           Err ("Unexpected signing method: " +:+ alg_text (jwt.Header token))
       | Some _ => Ok secret
       end).

Definition getID (r : http.Request) : result Z :=
  let idStr := default ""%string (http.Vars r !! "id") in
  match strconv.Atoi idStr with
  | Err _ => Err ("invalid id given " +:+ idStr)
  | Ok id => Ok id
  end.

(** The guard.  The line printed to standard output is left out. *)
Definition withJWTAuth (handlerFunc : HandlerFunc) : HandlerFunc :=
  fun amb s w r =>
    let tokenString := http.Header_Get (http.Header r) "x-jwt-token" in
    match validateJWT amb tokenString with
    | (_, Some _) => Returned (s, permissionDenied w)
    | (None, None) =>
        (* [token.Valid] on a nil token; [jwt.Parse] returns none without an error *)
        Panicked "invalid memory address or nil pointer dereference"
    | (Some token, None) =>
        if negb (jwt.Valid token) then Returned (s, permissionDenied w)
        else
          match getID r with
          | Err _ => Returned (s, permissionDenied w)
          | Ok userID =>
              match GetAccountByID s userID with
              | Err _ => Returned (s, permissionDenied w)
              | Ok account =>
                  (* [err] is the store's error, nil from here on *)
                  let err : option error := None in
                  let claims := jwt.Claims token in
                  match claims !! "accountNumber" with
                  | Some (Float64 f) =>
                      if negb (Number account =? int64_of_float64 f)
                      then Returned (s, permissionDenied w)
                      else
                        match err with
                        | Some _ =>
                            Returned
                              (s, fst (WriteJSON w http.StatusForbidden
                                         (ApiError_json
                                            {| Error := "invalid token" |})))
                        | None => handlerFunc amb s w r
                        end
                  | _ =>
                      Panicked "interface conversion: interface {} is not float64"
                  end
              end
          end
    end.

Definition makeHTTPHandleFunc (f : apiFunc) : HandlerFunc :=
  fun amb s w r =>
    match f amb s w r with
    | (s, w, Some err) =>
        Returned (s, fst (WriteJSON w http.StatusBadRequest
                            (ApiError_json {| Error := err |})))
    | (s, w, None) => Returned (s, w)
    end.

(** *** The handlers *)

Definition handleLogin : apiFunc :=
  fun amb s w r =>
    if negb (String.eqb (http.Method r) "POST") then
      (s, w, Some ("method not allowed " +:+ http.Method r))
    else
      match Decode LoginRequest_setter (http.Body r)
              {| lq_Number := 0; lq_Password := "" |} with
      | Err err => (s, w, Some err)
      | Ok req =>
          match GetAccountByNumber s (lq_Number req) with
          | Err err => (s, w, Some err)
          | Ok acc =>
              if negb (ValidPassword acc (lq_Password req)) then
                (s, w, Some "not authenticated"%string)
              else
                match createJWT amb acc with
                | Err err => (s, w, Some err)
                | Ok token =>
                    let resp := {| lr_Token := token; lr_Number := Number acc |} in
                    let '(w, err) :=
                      WriteJSON w http.StatusOK (LoginResponse_json resp) in
                    (s, w, err)
                end
          end
      end.

Definition handleGetAccount : apiFunc :=
  fun amb s w r =>
    match GetAccounts s with
    | Err err => (s, w, Some err)
    | Ok accounts =>
        let '(w, err) :=
          WriteJSON w http.StatusOK (JArray (Account_json <$> accounts)) in
        (s, w, err)
    end.

Definition handleCreateAccount : apiFunc :=
  fun amb s w r =>
    match Decode CreateAccountRequest_setter (http.Body r)
            {| cr_FirstName := ""; cr_LastName := ""; cr_Password := "" |} with
    | Err err => (s, w, Some err)
    | Ok req =>
        match NewAccount amb (cr_FirstName req) (cr_LastName req)
                (cr_Password req) with
        | Err err => (s, w, Some err)
        | Ok account =>
            match CreateAccount s account with
            | Err err => (s, w, Some err)
            | Ok s =>
                let '(w, err) :=
                  WriteJSON w http.StatusOK (Account_json account) in
                (s, w, err)
            end
        end
    end.

Definition handleAccount : apiFunc :=
  fun amb s w r =>
    if String.eqb (http.Method r) "GET" then handleGetAccount amb s w r
    else if String.eqb (http.Method r) "POST" then handleCreateAccount amb s w r
    else (s, w, Some ("method not allowed " +:+ http.Method r)).

Definition handleDeleteAccount : apiFunc :=
  fun amb s w r =>
    match getID r with
    | Err err => (s, w, Some err)
    | Ok id =>
        match DeleteAccount s id with
        | Err err => (s, w, Some err)
        | Ok s =>
            let '(w, err) :=
              WriteJSON w http.StatusOK (JObject [("deleted"%string, JInt id)]) in
            (s, w, err)
        end
    end.

Definition handleGetAccountByID : apiFunc :=
  fun amb s w r =>
    if String.eqb (http.Method r) "GET" then
      match getID r with
      | Err err => (s, w, Some err)
      | Ok id =>
          match GetAccountByID s id with
          | Err err => (s, w, Some err)
          | Ok account =>
              let '(w, err) :=
                WriteJSON w http.StatusOK (Account_json account) in
              (s, w, err)
          end
      end
    else if String.eqb (http.Method r) "DELETE" then
      handleDeleteAccount amb s w r
    else (s, w, Some ("method not allowed " +:+ http.Method r)).

Definition handleTransfer : apiFunc :=
  fun amb s w r =>
    match Decode TransferRequest_setter (http.Body r)
            {| ToAccount := 0; Amount := 0 |} with
    | Err err => (s, w, Some err)
    | Ok transferReq =>
        let '(w, err) :=
          WriteJSON w http.StatusOK (TransferRequest_json transferReq) in
        (s, w, err)
    end.

(** *** The route table of [Run]

    The router matches the path against the registered templates in
    order; [{id}] stands for one non-empty segment, which it binds.  A
    path that matches none is answered 404. *)
Definition with_vars (r : http.Request) (vars : gmap string string)
    : http.Request :=
  {| http.Method := http.Method r; http.Path := http.Path r;
     http.Vars := vars; http.Header := http.Header r;
     http.Body := http.Body r |}.

Definition Run : HandlerFunc :=
  fun amb s w r =>
    match http.Path r with
    | ["login"%string] => makeHTTPHandleFunc handleLogin amb s w (with_vars r ∅)
    | ["account"%string] =>
        makeHTTPHandleFunc handleAccount amb s w (with_vars r ∅)
    | ["account"%string; id] =>
        if String.eqb id "" then Returned (s, http.WriteHeader w http.StatusNotFound)
        else
          withJWTAuth (makeHTTPHandleFunc handleGetAccountByID) amb s w
            (with_vars r {[ "id"%string := id ]})
    | ["transfer"%string] =>
        makeHTTPHandleFunc handleTransfer amb s w (with_vars r ∅)
    | _ => Returned (s, http.WriteHeader w http.StatusNotFound)
    end.

End api_go.

(** ** main.go *)

(** [log.Fatal] ends the process: a step of [main] either goes on with a
    value or is fatal. *)
Inductive fatal (A : Type) : Type :=
  | Continues (a : A)
  | Fatal (err : error).
Arguments Continues {A} a.
Arguments Fatal {A} err.

Section main_go.
Context {prims : Primitives} {S : Type} {store : Storage S}.

(** The line printed with the account number is left out. *)
Definition seedAccount (amb : Ambient) (s : S) (fname lname pw : string)
    : fatal (S * Account) :=
  match NewAccount amb fname lname pw with
  | Err err => Fatal err
  | Ok acc =>
      match CreateAccount s acc with
      | Err err => Fatal err
      | Ok s => Continues (s, acc)
      end
  end.

Definition seedAccounts (amb : Ambient) (s : S) : fatal S :=
  match seedAccount amb s "anthony" "GG" "hunter88888" with
  | Fatal err => Fatal err
  | Continues (s, _) => Continues s
  end.

End main_go.

(** ** An in-memory store *)

(** Modelled from the spec: the store of the repository (a Postgres table
    behind storage.go) is not among the sources.  This one keeps the rows
    in a map keyed by the identifier it assigns, and never reuses an
    identifier. *)
Record MemStore : Type := {
  rows : gmap Z Account;
  next_id : Z
}.

Definition with_ID (a : Account) (id : Z) : Account :=
  {| ID := id; FirstName := FirstName a; LastName := LastName a;
     Number := Number a; EncryptedPassword := EncryptedPassword a;
     Balance := Balance a; CreatedAt := CreatedAt a |}.

Definition not_found (what : string) (n : Z) : error :=
  "account with " +:+ what +:+ " [" +:+ pretty n +:+ "] not found".

(** Modelled from the spec: the five operations of the Account Store on
    [MemStore]; a lookup or a deletion of an id that has no row is the
    spec's [NotFound]. *)
#[export] Instance MemStore_Storage : Storage MemStore := {
  CreateAccount m a :=
    Ok {| rows := <[next_id m := with_ID a (next_id m)]> (rows m);
          next_id := next_id m + 1 |};
  DeleteAccount m id :=
    match rows m !! id with
    | Some _ => Ok {| rows := delete id (rows m); next_id := next_id m |}
    | None => Err (not_found "id" id)
    end;
  GetAccounts m := Ok (snd <$> map_to_list (rows m));
  GetAccountByID m id :=
    match rows m !! id with
    | Some a => Ok a
    | None => Err (not_found "id" id)
    end;
  GetAccountByNumber m number :=
    match List.find (fun a => Number a =? number) (snd <$> map_to_list (rows m)) with
    | Some a => Ok a
    | None => Err (not_found "number" number)
    end
}.

Definition empty_store : MemStore := {| rows := ∅; next_id := 1 |}.

(** ** Transparent primitives

    One choice of the three primitives, under which the program can be
    run on concrete inputs: the MAC and the digest spell out their
    arguments, the segment encoder prints the map.  The theorems that
    follow are proved for every choice, not for this one. *)
Module Transparent.

Definition quote : string := String (ascii_of_nat 34) "".

Fixpoint print (v : any) : string :=
  match v with
  | Nil => "null"
  | Bool b => if b then "true" else "false"
  | Int n | Int64 n => pretty n
  | Float64 f => pretty (Qnum f) +:+ "/" +:+ pretty (Z.pos (Qden f))
  | Str s => quote +:+ s +:+ quote
  | Slice l => "[" +:+ foldr (fun x acc => print x +:+ "," +:+ acc) "]" l
  | Map m =>
      "{" +:+ foldr (fun kv acc => kv.1 +:+ ":" +:+ kv.2 +:+ "," +:+ acc) "}"
                (map_to_list (print <$> m))
  end.

Definition hash_name (h : Hash) : string :=
  match h with SHA256 => "SHA256" | SHA384 => "SHA384" | SHA512 => "SHA512" end.

#[export] Instance prims : Primitives := {
  hmac h key message :=
    "hmac-" +:+ hash_name h +:+ "(" +:+ key +:+ "," +:+ message +:+ ")";
  EncodeSegment m := print (Map m);
  eks_blowfish cost salt stream :=
    pretty cost +:+ "$" +:+ salt +:+ "$" +:+ string_of_list_ascii stream
}.

End Transparent.

(** ** Vocabulary of the statements *)

(** The method a token's header declares, when it is a registered one. *)
Definition declared_method (header : gmap string any) : option jwt.SigningMethod :=
  match header !! "alg" with
  | Some (Str alg) => jwt.GetSigningMethod alg
  | _ => None
  end.

(** The token read from a token string whose method is [m]. *)
Definition parsed (c : jwt.compact) (m : jwt.SigningMethod) (valid : bool)
    : jwt.Token :=
  {| jwt.Raw := jwt.Compact c; jwt.Method := Some m;
     jwt.Header := jwt.dec_header c; jwt.Claims := jwt.dec_claims c;
     jwt.Signature := jwt.dec_signature c; jwt.Valid := valid |}.

(** Validation succeeded: a token marked valid and a nil error. *)
Definition succeeds (res : option jwt.Token * option jwt.ValidationError) : bool :=
  match res with
  | (Some token, None) => jwt.Valid token
  | _ => false
  end.

(** The header and the claims of the tokens [createJWT] issues, before
    and after the JSON text. *)
Definition issued_header : gmap string any :=
  {[ "typ" := Str "JWT"; "alg" := Str "HS256" ]}.

Definition issued_claims (a : Account) : gmap string any :=
  json_roundtrip <$>
    ({[ "expiresAt" := Int 15000; "accountNumber" := Int64 (Number a) ]}
       : gmap string any).

Definition with_password (a : Account) (h : bcrypt.hashed) : Account :=
  {| ID := ID a; FirstName := FirstName a; LastName := LastName a;
     Number := Number a; EncryptedPassword := h;
     Balance := Balance a; CreatedAt := CreatedAt a |}.

Definition with_header (r : http.Request) (h : gmap string jwt.tokenString)
    : http.Request :=
  {| http.Method := http.Method r; http.Path := http.Path r;
     http.Vars := http.Vars r; http.Header := h; http.Body := http.Body r |}.

(** The route a path selects in the table of [Run]. *)
Inductive route : Type :=
  | RLogin
  | RAccount
  | RAccountByID (id : string)
  | RTransfer
  | RNotFound.

Definition route_of (path : list string) : route :=
  match path with
  | [p] =>
      if String.eqb p "login" then RLogin
      else if String.eqb p "account" then RAccount
      else if String.eqb p "transfer" then RTransfer
      else RNotFound
  | [p; id] =>
      if String.eqb p "account" && negb (String.eqb id "") then RAccountByID id
      else RNotFound
  | _ => RNotFound
  end.

Section vocabulary.
Context {prims : Primitives} {S : Type} {store : Storage S}.

(** The token declares an HMAC method and its third segment is the MAC of
    the first two under [secret]. *)
Definition signature_checks_out (secret : string) (c : jwt.compact) : bool :=
  match declared_method (jwt.dec_header c) ≫= jwt.SigningMethodHMAC with
  | Some h =>
      bool_decide
        (jwt.dec_signature c =
         Some (hmac h secret
                 (jwt.signing_string (jwt.seg_header c) (jwt.seg_claims c))))
  | None => false
  end.

(** The token string [createJWT] returns for [a] under [secret]. *)
Definition issued (secret : string) (a : Account) : jwt.compact :=
  let seg0 := EncodeSegment issued_header in
  let seg1 := EncodeSegment
                ({[ "expiresAt" := Int 15000;
                    "accountNumber" := Int64 (Number a) ]} : gmap string any) in
  {| jwt.seg_header := seg0;
     jwt.seg_claims := seg1;
     jwt.dec_header := json_roundtrip <$> issued_header;
     jwt.dec_claims := issued_claims a;
     jwt.dec_signature := Some (hmac SHA256 secret (jwt.signing_string seg0 seg1)) |}.

(** The guard denies a request when, whatever handler it wraps, it
    answers permission denied and leaves the store alone; it admits the
    request when it hands it to the handler, whatever the handler is. *)
Definition denies (amb : Ambient) (s : S) (w : http.ResponseWriter)
    (r : http.Request) : Prop :=
  forall handlerFunc : HandlerFunc,
    withJWTAuth handlerFunc amb s w r = Returned (s, permissionDenied w).

Definition admits (amb : Ambient) (s : S) (w : http.ResponseWriter)
    (r : http.Request) : Prop :=
  forall handlerFunc : HandlerFunc,
    withJWTAuth handlerFunc amb s w r = handlerFunc amb s w r.

(** Two distinct key streams with one digest. *)
Definition digest_collision (cost : Z) (salt : string) (k1 k2 : list ascii) : Prop :=
  k1 <> k2 /\ eks_blowfish cost salt k1 = eks_blowfish cost salt k2.

(** A handler is tidy when it either returns an error, having written
    nothing and left the store alone, or writes one value with status
    200. *)
Definition tidy (f : apiFunc) : Prop :=
  forall amb (s : S) w r,
    (exists err, f amb s w r = (s, w, Some err)) \/
    (exists s' v, f amb s w r = (s', fst (WriteJSON w http.StatusOK v), None)).

End vocabulary.

(** * Properties *)

Section proofs.
Context {prims : Primitives} {S : Type} {store : Storage S}.

(** ** Numbers through JSON *)

Lemma round53_small n : Z.abs n <= 2 ^ 53 -> round53 n = n.
Proof.
  intros Hn. unfold round53.
  destruct (Z.ltb_spec (Z.abs n) (2 ^ 53)) as [|Hge]; [done|].
  assert (Z.abs n = 2 ^ 53) as Habs by lia.
  destruct (Z.abs_spec n) as [[_ E]|[_ E]]; rewrite E in Habs.
  - subst n. reflexivity.
  - assert (n = - 2 ^ 53) as -> by lia. reflexivity.
Qed.

Lemma int64_of_inject_Z z :
  min_int64 <= z <= max_int64 -> int64_of_float64 (inject_Z z) = z.
Proof.
  intros [Hlo Hhi]. unfold int64_of_float64, inject_Z. cbn [Qnum Qden].
  rewrite Z.quot_1_r.
  destruct (Z.leb_spec min_int64 z); [|lia].
  destruct (Z.leb_spec z max_int64); [|lia]. reflexivity.
Qed.

Lemma issued_claims_lookup a k :
  issued_claims a !! k =
    if decide (k = "expiresAt"%string) then Some (Float64 (float64_of_int 15000))
    else if decide (k = "accountNumber"%string)
         then Some (Float64 (float64_of_int (Number a)))
         else None.
Proof.
  unfold issued_claims. rewrite lookup_fmap.
  repeat case_decide; simplify_map_eq; done.
Qed.

Lemma issued_claims_accountNumber a :
  issued_claims a !! "accountNumber" = Some (Float64 (float64_of_int (Number a))).
Proof. rewrite issued_claims_lookup. by repeat case_decide. Qed.

Lemma issued_claims_expiresAt a :
  issued_claims a !! "expiresAt" = Some (Float64 (inject_Z 15000)).
Proof. rewrite issued_claims_lookup. by repeat case_decide. Qed.


Lemma GetSigningMethod_Alg alg m :
  jwt.GetSigningMethod alg = Some m -> jwt.Alg m = alg.
Proof.
  unfold jwt.GetSigningMethod. intros H.
  apply List.find_some in H as [_ H]. by apply String.eqb_eq in H.
Qed.

Lemma lor_sig_nonzero e :
  (Z.lor e jwt.ValidationErrorSignatureInvalid =? 0) = false.
Proof.
  apply Z.eqb_neq. intros H0. apply Z.lor_eq_0_iff in H0 as [_ H0]. done.
Qed.

Lemma validateJWT_compact amb c :
  validateJWT amb (jwt.Compact c) =
    match declared_method (jwt.dec_header c) with
    | None =>
        (Some {| jwt.Raw := jwt.Compact c; jwt.Method := None;
                 jwt.Header := jwt.dec_header c; jwt.Claims := jwt.dec_claims c;
                 jwt.Signature := None; jwt.Valid := false |},
         Some (jwt.NewValidationError
                 (match jwt.dec_header c !! "alg" with
                  | Some (Str _) => "signing method (alg) is unavailable."
                  | _ => "signing method (alg) is unspecified."
                  end) jwt.ValidationErrorUnverifiable))
    | Some m =>
        match jwt.SigningMethodHMAC m with
        | None =>
            (Some {| jwt.Raw := jwt.Compact c; jwt.Method := Some m;
                     jwt.Header := jwt.dec_header c; jwt.Claims := jwt.dec_claims c;
                     jwt.Signature := None; jwt.Valid := false |},
             Some {| jwt.Inner := Some ("Unexpected signing method: " +:+ jwt.Alg m);
                     jwt.Errors := jwt.ValidationErrorUnverifiable |})
        | Some h =>
            let vErr := jwt.MapClaims_Valid (jwt.dec_claims c) (now amb) in
            if signature_checks_out (os.Getenv (environ amb) "JWT_SECRET") c then
              if jwt.Errors vErr =? 0 then (Some (parsed c m true), None)
              else (Some (parsed c m false), Some vErr)
            else
              (Some (parsed c m false),
               Some {| jwt.Inner :=
                         Some (match jwt.dec_signature c with
                               | None => "illegal base64 data"
                               | Some _ => "signature is invalid"
                               end);
                       jwt.Errors := Z.lor (jwt.Errors vErr)
                                       jwt.ValidationErrorSignatureInvalid |})
        end
    end.
Proof.
  unfold validateJWT, jwt.Parse, jwt.ParseUnverified, signature_checks_out,
    declared_method.
  destruct (jwt.dec_header c !! "alg") as [[| | | | |alg| |]|] eqn:Halg; try reflexivity.
  destruct (jwt.GetSigningMethod alg) as [m|] eqn:Hm; [|reflexivity].
  cbn [jwt.Method jwt.Header jwt.Claims jwt.Raw mbind option_bind].
  unfold alg_text. rewrite Halg. rewrite <- (GetSigningMethod_Alg _ _ Hm).
  destruct (jwt.SigningMethodHMAC m) as [h|] eqn:Hh; [|reflexivity].
  cbn [mbind option_bind]. unfold jwt.Verify. rewrite Hh.
  destruct (jwt.dec_signature c) as [sig|] eqn:Hsig.
  - destruct (String.eqb_spec sig
       (hmac h (os.Getenv (environ amb) "JWT_SECRET")
          (jwt.signing_string (jwt.seg_header c) (jwt.seg_claims c)))) as [->|Hne].
    + rewrite bool_decide_eq_true_2 by done. unfold parsed. rewrite Hsig.
      destruct (_ =? 0); reflexivity.
    + rewrite bool_decide_eq_false_2 by congruence.
      cbn [jwt.Errors]. rewrite lor_sig_nonzero.
      unfold parsed. rewrite Hsig. reflexivity.
  - rewrite bool_decide_eq_false_2 by congruence.
    cbn [jwt.Errors]. rewrite lor_sig_nonzero.
    unfold parsed. rewrite Hsig. reflexivity.
Qed.


Lemma validateJWT_shape amb tokenString :
  (exists token err, validateJWT amb tokenString = (token, Some err)) \/
  (exists token, validateJWT amb tokenString = (Some token, None) /\
                 jwt.Valid token = true).
Proof.
  destruct tokenString as [text|c].
  - left. eexists _, _. reflexivity.
  - rewrite validateJWT_compact.
    destruct (declared_method _) as [m|]; [|left; eauto].
    destruct (jwt.SigningMethodHMAC m); [|left; eauto].
    cbv zeta. destruct (signature_checks_out _ _); [|left; eauto].
    destruct (_ =? 0); [right|left]; eauto.
Qed.

Lemma succeeds_iff amb tokenString :
  succeeds (validateJWT amb tokenString) = true <->
  exists token, validateJWT amb tokenString = (Some token, None).
Proof.
  destruct (validateJWT_shape amb tokenString) as [(t & e & ->)|(t & -> & Hv)].
  - split; [destruct t; done|]. intros [? ?]; done.
  - cbn. rewrite Hv. split; eauto.
Qed.

(** The guard rejects whatever [validateJWT] rejects. *)
Lemma withJWTAuth_rejected handlerFunc amb s w r :
  succeeds (validateJWT amb (http.Header_Get (http.Header r) "x-jwt-token")) = false ->
  withJWTAuth handlerFunc amb s w r = Returned (s, permissionDenied w).
Proof.
  unfold withJWTAuth.
  destruct (validateJWT_shape amb (http.Header_Get (http.Header r) "x-jwt-token"))
    as [(t & e & ->)|(t & -> & Hv)]; [by destruct t|].
  cbn. rewrite Hv. done.
Qed.

(** Past validation, the guard is the lookup and the comparison. *)
Lemma withJWTAuth_validated handlerFunc amb s w r token :
  validateJWT amb (http.Header_Get (http.Header r) "x-jwt-token") = (Some token, None) ->
  withJWTAuth handlerFunc amb s w r =
    match getID r with
    | Err _ => Returned (s, permissionDenied w)
    | Ok userID =>
        match GetAccountByID s userID with
        | Err _ => Returned (s, permissionDenied w)
        | Ok account =>
            match jwt.Claims token !! "accountNumber" with
            | Some (Float64 f) =>
                if Number account =? int64_of_float64 f
                then handlerFunc amb s w r
                else Returned (s, permissionDenied w)
            | _ => Panicked "interface conversion: interface {} is not float64"
            end
        end
    end.
Proof.
  intros Hv. unfold withJWTAuth.
  destruct (validateJWT_shape amb (http.Header_Get (http.Header r) "x-jwt-token"))
    as [(t & e & He)|(t & Ht & Hvalid)]; [congruence|].
  rewrite Hv in Ht. injection Ht as <-. rewrite Hv, Hvalid. cbn [negb].
  destruct (getID r) as [userID|]; [|done].
  destruct (GetAccountByID s userID) as [account|]; [|done].
  destruct (jwt.Claims token !! "accountNumber") as [[| | | |f| | |]|]; try done.
  destruct (Number account =? int64_of_float64 f); done.
Qed.


Lemma createJWT_issued amb a :
  createJWT amb a =
    Ok (jwt.Compact (issued (os.Getenv (environ amb) "JWT_SECRET") a)).
Proof. reflexivity. Qed.

Lemma issued_declared_method secret a :
  declared_method (jwt.dec_header (issued secret a)) = Some jwt.HS256.
Proof. reflexivity. Qed.

Lemma issued_signature_checks_out secret a :
  signature_checks_out secret (issued secret a) = true.
Proof.
  unfold signature_checks_out. rewrite issued_declared_method. cbn.
  by apply bool_decide_eq_true_2.
Qed.

Lemma issued_claims_Valid a t :
  jwt.MapClaims_Valid (issued_claims a) t = {| jwt.Inner := None; jwt.Errors := 0 |}.
Proof.
  unfold jwt.MapClaims_Valid, jwt.VerifyExpiresAt, jwt.VerifyIssuedAt,
    jwt.VerifyNotBefore.
  rewrite !issued_claims_lookup. reflexivity.
Qed.

(** Every token the program issues passes validation under the secret it
    was issued with, at any time. *)
Lemma validateJWT_issued amb a :
  validateJWT amb (jwt.Compact (issued (os.Getenv (environ amb) "JWT_SECRET") a)) =
    (Some (parsed (issued (os.Getenv (environ amb) "JWT_SECRET") a) jwt.HS256 true),
     None).
Proof.
  rewrite validateJWT_compact, issued_declared_method. cbn [jwt.SigningMethodHMAC].
  cbv zeta. rewrite issued_signature_checks_out.
  cbn [jwt.dec_claims issued]. rewrite issued_claims_Valid. reflexivity.
Qed.


Lemma float64_of_int_small n :
  Z.abs n <= 2 ^ 53 -> float64_of_int n = inject_Z n.
Proof. intros H. unfold float64_of_int. by rewrite round53_small. Qed.

Lemma int64_of_float64_of_int n :
  Z.abs n <= 2 ^ 53 -> int64_of_float64 (float64_of_int n) = n.
Proof.
  intros H. rewrite float64_of_int_small by done.
  apply int64_of_inject_Z. unfold min_int64, max_int64. lia.
Qed.

(** C4 (as amended).  For every account whose number has magnitude at
    most 2^53, the token issued for it validates under the same secret,
    at any time, and the [accountNumber] claim of the validated token is
    the account's number. *)
Theorem token_roundtrip (amb amb' : Ambient) (a : Account) :
  os.Getenv (environ amb') "JWT_SECRET" = os.Getenv (environ amb) "JWT_SECRET" ->
  Z.abs (Number a) <= 2 ^ 53 ->
  exists tok token,
    createJWT amb a = Ok tok /\
    validateJWT amb' tok = (Some token, None) /\
    jwt.Valid token = true /\
    jwt.Claims token !! "accountNumber" = Some (Float64 (inject_Z (Number a))).
Proof.
  intros Hsecret Hn. eexists _, _. split; [apply createJWT_issued|].
  rewrite <- Hsecret.
  split; [apply validateJWT_issued|]. split; [reflexivity|].
  cbn [jwt.Claims parsed jwt.dec_claims issued].
  by rewrite issued_claims_accountNumber, float64_of_int_small.
Qed.

(** C8 (as amended).  When the signing secret is absent from the
    environment or empty, issuance succeeds with the empty string as the
    key, and the issued token validates: the program has no check on the
    secret. *)
Theorem empty_secret_is_a_key (amb : Ambient) (a : Account) :
  environ amb !! "JWT_SECRET" = None \/ environ amb !! "JWT_SECRET" = Some ""%string ->
  exists c token,
    createJWT amb a = Ok (jwt.Compact c) /\
    jwt.dec_signature c =
      Some (hmac SHA256 "" (jwt.signing_string (jwt.seg_header c) (jwt.seg_claims c))) /\
    validateJWT amb (jwt.Compact c) = (Some token, None) /\
    jwt.Valid token = true.
Proof.
  intros Hsecret.
  assert (os.Getenv (environ amb) "JWT_SECRET" = ""%string) as Hempty.
  { unfold os.Getenv. destruct Hsecret as [H|H]; rewrite H; reflexivity. }
  pose proof (validateJWT_issued amb a) as Hv. rewrite Hempty in Hv.
  exists (issued "" a). eexists. split; [by rewrite createJWT_issued, Hempty|].
  split; [reflexivity|]. split; [exact Hv|reflexivity].
Qed.

(** C1 (as amended).  Let A and B be stored accounts with distinct
    numbers, A's of magnitude at most 2^53, and let a request bear the
    token issued for A.  Targeting B's id it is denied; targeting A's id
    it is admitted; and targeting the id of any stored account it is
    admitted exactly when that account's number is A's, the number the
    token's claim holds.  In general a request whose token validates and
    whose path id resolves is admitted exactly when the account's number
    equals the token's [accountNumber] claim converted to int64. *)
Theorem ownership_enforcement (amb : Ambient) (s : S) (A B : Account)
    (idA idB : Z) (tok : jwt.tokenString) (w : http.ResponseWriter)
    (r : http.Request) :
  GetAccountByID s idA = Ok A ->
  GetAccountByID s idB = Ok B ->
  Number A <> Number B ->
  Z.abs (Number A) <= 2 ^ 53 ->
  createJWT amb A = Ok tok ->
  http.Header r !! "x-jwt-token" = Some tok ->
  (getID r = Ok idB -> denies amb s w r) /\
  (getID r = Ok idA -> admits amb s w r) /\
  (forall id account,
     getID r = Ok id -> GetAccountByID s id = Ok account ->
     (admits amb s w r <-> Number account = Number A)) /\
  (forall r' token f id account,
     validateJWT amb (http.Header_Get (http.Header r') "x-jwt-token") =
       (Some token, None) ->
     jwt.Claims token !! "accountNumber" = Some (Float64 f) ->
     getID r' = Ok id -> GetAccountByID s id = Ok account ->
     (admits amb s w r' <-> Number account = int64_of_float64 f)).
Proof.
  intros HA HB Hne Hsmall Htok Hhdr.
  rewrite createJWT_issued in Htok. injection Htok as <-.
  assert (forall handlerFunc : HandlerFunc, forall id account,
            getID r = Ok id -> GetAccountByID s id = Ok account ->
            withJWTAuth handlerFunc amb s w r =
              if Number account =? Number A then handlerFunc amb s w r
              else Returned (s, permissionDenied w)) as Hguard.
  { intros h id account Hid Hacc.
    rewrite (withJWTAuth_validated h amb s w r
               (parsed (issued (os.Getenv (environ amb) "JWT_SECRET") A) jwt.HS256 true)).
    - rewrite Hid, Hacc. cbn [jwt.Claims parsed jwt.dec_claims issued].
      by rewrite issued_claims_accountNumber, int64_of_float64_of_int.
    - unfold http.Header_Get. rewrite Hhdr. apply validateJWT_issued. }
  split; [|split; [|split]].
  - intros Hid h. rewrite (Hguard h _ _ Hid HB).
    destruct (Z.eqb_spec (Number B) (Number A)); congruence.
  - intros Hid h. rewrite (Hguard h _ _ Hid HA). by rewrite Z.eqb_refl.
  - intros id account Hid Hacc. split.
    + intros Hadm. specialize (Hadm (fun _ _ _ _ => Panicked "")).
      rewrite (Hguard _ _ _ Hid Hacc) in Hadm.
      destruct (Z.eqb_spec (Number account) (Number A)); [done|discriminate].
    + intros Heq h. rewrite (Hguard h _ _ Hid Hacc).
      rewrite Heq. by rewrite Z.eqb_refl.
  - intros r' token f id account Hv Hclaim Hid Hacc. split.
    + intros Hadm. specialize (Hadm (fun _ _ _ _ => Panicked "")).
      rewrite (withJWTAuth_validated _ _ _ _ _ _ Hv), Hid, Hacc, Hclaim in Hadm.
      destruct (Z.eqb_spec (Number account) (int64_of_float64 f));
        [done|discriminate].
    + intros Heq h.
      rewrite (withJWTAuth_validated _ _ _ _ _ _ Hv), Hid, Hacc, Hclaim, Heq.
      by rewrite Z.eqb_refl.
Qed.

(** ** Password hashing *)

Lemma list_ascii_of_string_app (s1 s2 : string) :
  list_ascii_of_string (s1 +:+ s2) =
  list_ascii_of_string s1 ++ list_ascii_of_string s2.
Proof. induction s1 as [|c s1 IH]; [done|]. simpl. by f_equal. Qed.

Lemma length_list_ascii_of_string (s : string) :
  length (list_ascii_of_string s) = String.length s.
Proof. induction s as [|c s IH]; [done|]. simpl. by f_equal. Qed.

(** Within its first 72 bytes the key is read as it is. *)
Lemma key_stream_lookup (key : list ascii) (i : nat) :
  (i < 72)%nat -> (i < length key)%nat ->
  bcrypt.key_stream key !! i = key !! i.
Proof.
  intros H72 Hlen. unfold bcrypt.key_stream.
  rewrite lookup_take_lt by done.
  change (replicate 72 key) with (key :: replicate 71 key).
  cbn [mjoin list_join]. by rewrite lookup_app_l.
Qed.

(** A key of 72 bytes or more is read up to its 72nd byte only. *)
Lemma key_stream_prefix (l t : list ascii) :
  length l = 72%nat -> bcrypt.key_stream (l ++ t) = l.
Proof.
  intros Hlen. unfold bcrypt.key_stream.
  change (replicate 72 (l ++ t)) with ((l ++ t) :: replicate 71 (l ++ t)).
  cbn [mjoin list_join]. rewrite <- !(assoc_L (++)).
  rewrite take_app_length' by done. done.
Qed.

Lemma bcrypt_ignores_past_72 (p suffix : string) cost salt :
  String.length p = 72%nat ->
  bcrypt.bcrypt (p +:+ suffix) cost salt = bcrypt.bcrypt p cost salt.
Proof.
  intros Hlen. unfold bcrypt.bcrypt. rewrite list_ascii_of_string_app.
  rewrite <- (assoc_L (++)).
  rewrite !key_stream_prefix by by rewrite length_list_ascii_of_string.
  done.
Qed.

Lemma NewAccount_ok (amb : Ambient) (firstName lastName p : string) :
  (String.length p <= 72)%nat ->
  NewAccount amb firstName lastName p =
    Ok {| ID := 0; FirstName := firstName; LastName := lastName;
          EncryptedPassword :=
            bcrypt.Hashed bcrypt.DefaultCost (salt amb)
              (bcrypt.bcrypt p bcrypt.DefaultCost (salt amb));
          Number := Intn (rnd amb) 1000000; Balance := 0;
          CreatedAt := now amb |}.
Proof.
  intros Hlen. unfold NewAccount, bcrypt.GenerateFromPassword.
  destruct (Z.ltb_spec 72 (Z.of_nat (String.length p))); [lia|]. reflexivity.
Qed.

Lemma key_streams_differ (p : string) :
  (String.length p <= 71)%nat ->
  bcrypt.key_stream (list_ascii_of_string p ++ [Ascii.zero]) <>
  bcrypt.key_stream (list_ascii_of_string (p +:+ "x") ++ [Ascii.zero]).
Proof.
  intros Hlen Heq.
  rewrite list_ascii_of_string_app in Heq. cbn [list_ascii_of_string] in Heq.
  rewrite <- (assoc_L (++)) in Heq.
  apply (f_equal (fun l => l !! String.length p)) in Heq.
  rewrite !key_stream_lookup in Heq
    by (rewrite ?length_app, ?length_list_ascii_of_string; cbn [length]; lia).
  rewrite !lookup_app_r in Heq by (rewrite length_list_ascii_of_string; lia).
  rewrite length_list_ascii_of_string, Nat.sub_diag in Heq. discriminate.
Qed.

(** C5 (as amended).  For every plaintext of at most 72 bytes the
    factory hashes it and verifying the same plaintext returns true.
    When the plaintext has at most 71 bytes, verifying it with an "x"
    appended returns false, unless the digests of the two (distinct) key
    streams collide.  Verification is a boolean in every case: true
    exactly when the offered password has the stored digest. *)
Theorem hash_roundtrip (amb : Ambient) (firstName lastName p : string) :
  (String.length p <= 72)%nat ->
  exists a,
    NewAccount amb firstName lastName p = Ok a /\
    ValidPassword a p = true /\
    ((String.length p <= 71)%nat ->
     ValidPassword a (p +:+ "x") = false \/
     digest_collision bcrypt.DefaultCost (salt amb)
       (bcrypt.key_stream (list_ascii_of_string p ++ [Ascii.zero]))
       (bcrypt.key_stream (list_ascii_of_string (p +:+ "x") ++ [Ascii.zero]))) /\
    (forall pw,
       ValidPassword a pw = true <->
       bcrypt.bcrypt pw bcrypt.DefaultCost (salt amb) =
       bcrypt.bcrypt p bcrypt.DefaultCost (salt amb)).
Proof.
  intros Hlen. eexists. split; [by apply NewAccount_ok|].
  unfold ValidPassword, bcrypt.CompareHashAndPassword. cbn [EncryptedPassword].
  split; [by rewrite String.eqb_refl|]. split.
  - intros H71.
    destruct (String.eqb_spec (bcrypt.bcrypt p bcrypt.DefaultCost (salt amb))
                (bcrypt.bcrypt (p +:+ "x") bcrypt.DefaultCost (salt amb)))
      as [Heq|Hne]; [right|by left].
    split; [by apply key_streams_differ|exact Heq].
  - intros pw. destruct (String.eqb_spec
      (bcrypt.bcrypt p bcrypt.DefaultCost (salt amb))
      (bcrypt.bcrypt pw bcrypt.DefaultCost (salt amb))) as [Heq|Hne];
      split; congruence.
Qed.

(** ** The guard *)

Lemma succeeds_false_not_checked amb c :
  signature_checks_out (os.Getenv (environ amb) "JWT_SECRET") c = false ->
  succeeds (validateJWT amb (jwt.Compact c)) = false.
Proof.
  intros Hsig. rewrite validateJWT_compact.
  destruct (declared_method _) as [m|]; [|done].
  destruct (jwt.SigningMethodHMAC m); [|done].
  cbv zeta. by rewrite Hsig.
Qed.

(** What the guard writes when it denies, on a writer nothing was
    written to. *)
Lemma permissionDenied_blank :
  permissionDenied http.blank =
    {| http.header := [("Content-Type", "application/json")]%string;
       http.status := Some 403;
       http.body := [JObject [("error"%string, JString "permission denied")]] |}.
Proof. reflexivity. Qed.



(** C7.  A token whose header declares no method of the HMAC family (a
    registered method of another family, an unknown name, or none at all)
    is rejected: validation returns an error whose only bit is
    [ValidationErrorUnverifiable], the token is not marked valid, and for
    a registered method the error is the key function's "Unexpected
    signing method".  This holds whatever the signature and the claims
    are. *)
Theorem algorithm_confusion_rejected (amb : Ambient) (c : jwt.compact) :
  declared_method (jwt.dec_header c) ≫= jwt.SigningMethodHMAC = None ->
  exists token err,
    validateJWT amb (jwt.Compact c) = (Some token, Some err) /\
    jwt.Errors err = jwt.ValidationErrorUnverifiable /\
    jwt.Valid token = false /\
    succeeds (validateJWT amb (jwt.Compact c)) = false /\
    (forall m, declared_method (jwt.dec_header c) = Some m ->
       jwt.Inner err = Some ("Unexpected signing method: " +:+ jwt.Alg m)).
Proof.
  intros Hm. rewrite validateJWT_compact.
  destruct (declared_method (jwt.dec_header c)) as [m|]; cbn in Hm.
  - rewrite Hm. eexists _, _. repeat split. by intros ? [= <-].
  - eexists _, _. repeat split. done.
Qed.

Lemma MapClaims_Valid_ext (m m' : gmap string any) t :
  m !! "exp" = m' !! "exp" -> m !! "iat" = m' !! "iat" ->
  m !! "nbf" = m' !! "nbf" ->
  jwt.MapClaims_Valid m t = jwt.MapClaims_Valid m' t.
Proof.
  intros He Hi Hn.
  unfold jwt.MapClaims_Valid, jwt.VerifyExpiresAt, jwt.VerifyIssuedAt,
    jwt.VerifyNotBefore.
  by rewrite He, Hi, Hn.
Qed.

Lemma succeeds_checked amb c :
  signature_checks_out (os.Getenv (environ amb) "JWT_SECRET") c = true ->
  succeeds (validateJWT amb (jwt.Compact c)) =
    (jwt.Errors (jwt.MapClaims_Valid (jwt.dec_claims c) (now amb)) =? 0).
Proof.
  intros Hsig. rewrite validateJWT_compact.
  destruct (declared_method (jwt.dec_header c)) as [m|] eqn:Hm.
  - destruct (jwt.SigningMethodHMAC m) as [h|] eqn:Hh.
    + cbv zeta. rewrite Hsig. by destruct (_ =? 0).
    + unfold signature_checks_out in Hsig. rewrite Hm in Hsig. cbn in Hsig.
      by rewrite Hh in Hsig.
  - unfold signature_checks_out in Hsig. by rewrite Hm in Hsig.
Qed.

(** C6 (as amended).  Every issued token carries the claim [expiresAt]
    with the constant 15000.  Validation never reads it: two tokens whose
    signature and algorithm check out and whose claims agree everywhere
    but at [expiresAt] are both accepted or both rejected; and a token
    whose signature and algorithm check out is accepted whenever it
    carries none of the registered time claims [exp], [iat], [nbf], which
    the library does enforce. *)
Theorem expiry_is_advisory (amb : Ambient) :
  (forall a, exists c,
     createJWT amb a = Ok (jwt.Compact c) /\
     jwt.dec_claims c !! "expiresAt" = Some (Float64 (inject_Z 15000))) /\
  (forall c c',
     signature_checks_out (os.Getenv (environ amb) "JWT_SECRET") c = true ->
     signature_checks_out (os.Getenv (environ amb) "JWT_SECRET") c' = true ->
     (forall k, k <> "expiresAt"%string ->
                jwt.dec_claims c !! k = jwt.dec_claims c' !! k) ->
     succeeds (validateJWT amb (jwt.Compact c)) =
     succeeds (validateJWT amb (jwt.Compact c'))) /\
  (forall c,
     signature_checks_out (os.Getenv (environ amb) "JWT_SECRET") c = true ->
     jwt.dec_claims c !! "exp" = None ->
     jwt.dec_claims c !! "iat" = None ->
     jwt.dec_claims c !! "nbf" = None ->
     succeeds (validateJWT amb (jwt.Compact c)) = true).
Proof.
  split; [|split].
  - intros a. eexists. split; [apply createJWT_issued|].
    apply issued_claims_expiresAt.
  - intros c c' Hc Hc' Hsame. rewrite !succeeds_checked by done.
    by rewrite (MapClaims_Valid_ext (jwt.dec_claims c) (jwt.dec_claims c'))
      by (apply Hsame; discriminate).
  - intros c Hc Hexp Hiat Hnbf. rewrite succeeds_checked by done.
    unfold jwt.MapClaims_Valid, jwt.VerifyExpiresAt, jwt.VerifyIssuedAt,
      jwt.VerifyNotBefore.
    by rewrite Hexp, Hiat, Hnbf.
Qed.

(** C10 (as amended).  When a request's token validates but its claim
    set has no [accountNumber] that is a number, the guard panics at the
    type assertion provided the path id resolves to a stored account; if
    the id is malformed or no account has it, the guard denies before it
    reaches the assertion.  When every token that validates carries a
    numeric [accountNumber], the guard is total: it denies or it hands
    over to the handler. *)
Theorem guard_totality (handlerFunc : HandlerFunc) (amb : Ambient) (s : S)
    (w : http.ResponseWriter) (r : http.Request) :
  (forall token,
     validateJWT amb (http.Header_Get (http.Header r) "x-jwt-token") = (Some token, None) ->
     (forall f, jwt.Claims token !! "accountNumber" <> Some (Float64 f)) ->
     (forall id account,
        getID r = Ok id -> GetAccountByID s id = Ok account ->
        withJWTAuth handlerFunc amb s w r =
          Panicked "interface conversion: interface {} is not float64") /\
     (forall e, getID r = Err e ->
        withJWTAuth handlerFunc amb s w r = Returned (s, permissionDenied w)) /\
     (forall id e, getID r = Ok id -> GetAccountByID s id = Err e ->
        withJWTAuth handlerFunc amb s w r = Returned (s, permissionDenied w))) /\
  ((forall token,
      validateJWT amb (http.Header_Get (http.Header r) "x-jwt-token") = (Some token, None) ->
      exists f, jwt.Claims token !! "accountNumber" = Some (Float64 f)) ->
   withJWTAuth handlerFunc amb s w r = Returned (s, permissionDenied w) \/
   withJWTAuth handlerFunc amb s w r = handlerFunc amb s w r).
Proof.
  split.
  - intros token Hv Hclaim. rewrite (withJWTAuth_validated _ _ _ _ _ _ Hv).
    split; [|split].
    + intros id account -> ->.
      destruct (jwt.Claims token !! "accountNumber") as [[| | | |f| | |]|] eqn:E;
        try done.
      by destruct (Hclaim f).
    + by intros e ->.
    + by intros id e -> ->.
  - intros Hnum.
    destruct (validateJWT_shape amb (http.Header_Get (http.Header r) "x-jwt-token"))
      as [(t & e & He)|(t & Ht & Hvalid)].
    + left. apply withJWTAuth_rejected. rewrite He. by destruct t.
    + rewrite (withJWTAuth_validated _ _ _ _ _ _ Ht).
      destruct (Hnum _ Ht) as [f ->].
      destruct (getID r); [|by left].
      destruct (GetAccountByID s a); [|by left].
      destruct (_ =? _); auto.
Qed.

(** ** The route table *)

Lemma handleAccount_reads (amb : Ambient) (s : S) (w : http.ResponseWriter)
    (r r' : http.Request) :
  http.Method r = http.Method r' -> http.Body r = http.Body r' ->
  handleAccount amb s w r = handleAccount amb s w r'.
Proof.
  intros Hm Hb. unfold handleAccount, handleGetAccount, handleCreateAccount.
  by rewrite Hm, Hb.
Qed.

(** C3 (as amended).  The route [/account/{id}] (read and delete by id)
    is gated: on a request whose token does not validate, the server
    answers permission denied and the store is left as it was.  The route
    [/account] (list and create) is not: what the server does there does
    not depend on the request's headers. *)
Theorem account_routes_gating (amb : Ambient) (s : S) (w : http.ResponseWriter)
    (r : http.Request) :
  (forall id,
     http.Path r = ["account"%string; id] -> id <> ""%string ->
     succeeds (validateJWT amb (http.Header_Get (http.Header r) "x-jwt-token")) = false ->
     Run amb s w r = Returned (s, permissionDenied w)) /\
  (http.Path r = ["account"%string] ->
   forall h, Run amb s w (with_header r h) = Run amb s w r).
Proof.
  split.
  - intros id Hpath Hid Hv. unfold Run. rewrite Hpath. cbn.
    destruct (String.eqb_spec id ""); [done|].
    by apply withJWTAuth_rejected.
  - intros Hpath h. unfold Run. cbn [with_header http.Path]. rewrite Hpath. cbn.
    unfold makeHTTPHandleFunc.
    by rewrite (handleAccount_reads amb s w (with_vars (with_header r h) ∅)
                  (with_vars r ∅)).
Qed.

(** ** What the handlers write *)

(** The member names of an object. *)
Definition members (j : json) : list string :=
  match j with
  | JObject fields => fields.*1
  | _ => []
  end.

(** Two accounts that differ at most in the hashed credential. *)
Definition same_public (a a' : Account) : Prop :=
  a' = with_password a (EncryptedPassword a').

Lemma Account_json_with_password a h :
  Account_json (with_password a h) = Account_json a.
Proof. reflexivity. Qed.

Lemma Account_json_same_public a a' :
  same_public a a' -> Account_json a' = Account_json a.
Proof. intros ->. apply Account_json_with_password. Qed.

Lemma Account_json_same_public_list l l' :
  Forall2 same_public l l' -> Account_json <$> l' = Account_json <$> l.
Proof.
  induction 1 as [|a a' l l' Ha _ IH]; [done|].
  cbn. by rewrite IH, (Account_json_same_public a a').
Qed.

(** C9.  The JSON of an account has the six public members and does not
    depend on the hashed credential; hence what fetch-by-id, list and
    create write is the same for accounts (or stores, or create requests)
    that differ only in the credential. *)
Theorem hashed_credential_not_serialized (amb : Ambient) (w : http.ResponseWriter) :
  (forall a h,
     Account_json (with_password a h) = Account_json a /\
     members (Account_json a) =
       ["id"; "firstName"; "lastName"; "number"; "balance"; "createdAt"]%string) /\
  (forall (s s' : S) r id a a',
     http.Method r = "GET"%string -> getID r = Ok id ->
     GetAccountByID s id = Ok a -> GetAccountByID s' id = Ok a' ->
     same_public a a' ->
     (handleGetAccountByID amb s w r).1.2 = (WriteJSON w http.StatusOK (Account_json a)).1 /\
     (handleGetAccountByID amb s' w r).1.2 = (handleGetAccountByID amb s w r).1.2) /\
  (forall (s s' : S) r l l',
     GetAccounts s = Ok l -> GetAccounts s' = Ok l' ->
     Forall2 same_public l l' ->
     (handleGetAccount amb s w r).1.2 =
       (WriteJSON w http.StatusOK (JArray (Account_json <$> l))).1 /\
     (handleGetAccount amb s' w r).1.2 = (handleGetAccount amb s w r).1.2) /\
  (forall (s s1 s1' : S) r r' req req' w1 w1',
     Decode CreateAccountRequest_setter (http.Body r)
       {| cr_FirstName := ""; cr_LastName := ""; cr_Password := "" |} = Ok req ->
     Decode CreateAccountRequest_setter (http.Body r')
       {| cr_FirstName := ""; cr_LastName := ""; cr_Password := "" |} = Ok req' ->
     cr_FirstName req = cr_FirstName req' ->
     cr_LastName req = cr_LastName req' ->
     handleCreateAccount amb s w r = (s1, w1, None) ->
     handleCreateAccount amb s w r' = (s1', w1', None) ->
     w1' = w1).
Proof.
  split; [done|]. split; [|split].
  - intros s s' r id a a' Hm Hid Ha Ha' Hsame.
    unfold handleGetAccountByID. rewrite Hm, Hid, Ha, Ha'. cbn.
    by rewrite (Account_json_same_public a a').
  - intros s s' r l l' Hl Hl' Hsame.
    unfold handleGetAccount. rewrite Hl, Hl'. cbn.
    by rewrite (Account_json_same_public_list l l').
  - intros s s1 s1' r r' req req' w1 w1' Hreq Hreq' Hfn Hln.
    unfold handleCreateAccount. rewrite Hreq, Hreq'.
    unfold NewAccount.
    destruct (bcrypt.GenerateFromPassword _ (cr_Password req) _); [|done].
    destruct (bcrypt.GenerateFromPassword _ (cr_Password req') _); [|done].
    destruct (CreateAccount s _); [|done].
    destruct (CreateAccount s _); [|done].
    cbn. rewrite Hfn, Hln. by intros [= _ <-] [= _ <-].
Qed.

End proofs.

(** * Further properties *)

Section more_properties.
Context {prims : Primitives} {S : Type} {store : Storage S}.

(** ** Path identifiers *)

Lemma digit_pretty_N_char (d : N) :
  (d < 10)%N -> strconv.digit (pretty_N_char d) = Some (Z.of_N d).
Proof.
  intros Hd.
  assert (d = 0 \/ d = 1 \/ d = 2 \/ d = 3 \/ d = 4 \/ d = 5 \/ d = 6 \/
          d = 7 \/ d = 8 \/ d = 9)%N as Hcases by lia.
  repeat (destruct Hcases as [->|Hcases]; [reflexivity|]).
  by subst.
Qed.

(** Reading the decimal numeral of [x] in front of [s] shifts the
    accumulator by its digits and adds [x]. *)
Lemma digits_pretty_N_go (x : N) :
  exists k, 0 <= k /\
    forall s acc,
      strconv.digits (pretty_N_go x s) acc =
      strconv.digits s (acc * 10 ^ k + Z.of_N x).
Proof.
  induction (N.lt_wf_0 x) as [x _ IH].
  assert (x = 0 \/ 0 < x)%N as [->|Hpos] by lia.
  - exists 0. split; [done|]. intros s acc. rewrite pretty_N_go_0.
    f_equal. lia.
  - destruct (IH (x `div` 10)%N) as (k & Hk & Hdigits).
    { by apply N.div_lt. }
    exists (k + 1). split; [lia|]. intros s acc.
    rewrite pretty_N_go_step, Hdigits by done. cbn [strconv.digits].
    rewrite digit_pretty_N_char by (by apply N.mod_lt).
    f_equal. rewrite Z.pow_add_r, Z.pow_1_r by lia.
    rewrite (N.div_mod x 10) at 3 by done.
    rewrite N2Z.inj_add, N2Z.inj_mul. change (Z.of_N 10) with 10. lia.
Qed.

Lemma digits_pretty_N (x : N) :
  (0 < x)%N -> strconv.digits (pretty_N_go x "") 0 = Some (Z.of_N x).
Proof.
  intros Hx. destruct (digits_pretty_N_go x) as (k & _ & H). rewrite H.
  cbn [strconv.digits]. f_equal; lia.
Qed.

(** The numeral of a positive number starts with a digit. *)
Lemma pretty_N_go_head (x : N) (s : string) :
  (0 < x)%N ->
  exists d r, (d < 10)%N /\ pretty_N_go x s = String (pretty_N_char d) r.
Proof.
  revert s. induction (N.lt_wf_0 x) as [x _ IH]. intros s Hx.
  rewrite pretty_N_go_step by done.
  destruct (N.eq_0_gt_0_cases (x `div` 10)) as [->|Hpos].
  - rewrite pretty_N_go_0. eexists _, _. split; [|done]. by apply N.mod_lt.
  - apply IH; [by apply N.div_lt|done].
Qed.

Lemma Atoi_unsigned (c : ascii) (r : string) (d n : Z) :
  strconv.digit c = Some d ->
  strconv.digits (String c r) 0 = Some n ->
  min_int64 <= n <= max_int64 ->
  strconv.Atoi (String c r) = Ok n.
Proof.
  intros Hd Hn Hrange. unfold strconv.Atoi.
  assert (c <> "-"%char /\ c <> "+"%char) as [Hm Hp].
  { split; intros ->; discriminate. }
  replace (match String c r with
           | String "-"%char r0 => (true, r0)
           | String "+"%char r0 => (false, r0)
           | _ => (false, String c r)
           end) with (false, String c r).
  - rewrite Hn.
    destruct (Z.leb_spec min_int64 n); [|lia].
    destruct (Z.leb_spec n max_int64); [|lia]. reflexivity.
  - destruct c as [[] [] [] [] [] [] [] []]; done.
Qed.

Lemma Atoi_pretty (n : Z) :
  min_int64 <= n <= max_int64 -> strconv.Atoi (pretty n) = Ok n.
Proof.
  intros Hrange. destruct n as [|p|p].
  - reflexivity.
  - unfold pretty, pretty_Z, pretty, pretty_positive, pretty, pretty_N.
    rewrite decide_False by done.
    destruct (pretty_N_go_head (N.pos p) "") as (d & r & Hd & Hr); [done|].
    pose proof (digits_pretty_N (N.pos p) eq_refl) as Hdigits.
    rewrite Hr in *.
    apply (Atoi_unsigned _ _ (Z.of_N d)); [by apply digit_pretty_N_char|done|done].
  - unfold pretty, pretty_Z, pretty, pretty_positive, pretty, pretty_N.
    rewrite decide_False by done.
    destruct (pretty_N_go_head (N.pos p) "") as (d & r & Hd & Hr); [done|].
    pose proof (digits_pretty_N (N.pos p) eq_refl) as Hdigits.
    rewrite Hr in *.
    change ("-" +:+ String (pretty_N_char d) r)
      with (String "-" (String (pretty_N_char d) r)).
    cbv beta iota zeta delta [strconv.Atoi].
    rewrite Hdigits. change (Z.of_N (N.pos p)) with (Z.pos p).
    change (- Z.pos p) with (Z.neg p).
    destruct (Z.leb_spec min_int64 (Z.neg p)); [|lia].
    destruct (Z.leb_spec (Z.neg p) max_int64); [|lia]. reflexivity.
Qed.

Lemma Atoi_range (s : string) (n : Z) :
  strconv.Atoi s = Ok n -> min_int64 <= n <= max_int64 /\ s <> ""%string.
Proof.
  unfold strconv.Atoi.
  destruct (match s with
            | String "-"%char r => (true, r)
            | String "+"%char r => (false, r)
            | _ => (false, s)
            end) as [neg body] eqn:Hs.
  intros H. split.
  - destruct body; [done|]. destruct (strconv.digits _ _); [|done].
    destruct (Z.leb_spec min_int64 (if neg then - z else z)); [|done].
    destruct (Z.leb_spec (if neg then - z else z) max_int64); [|done].
    cbn in H. injection H as <-. done.
  - intros ->. by injection Hs as <- <-.
Qed.


(** X1.  [getID] reads the path variable id as a decimal number.  The
    numeral of every int64 is read back as that number; an id that is
    read is an int64 and its text is not empty; a request with no id
    variable is answered with the error invalid id given. *)
Theorem getID_reads_decimal (r : http.Request) :
  (forall n,
     min_int64 <= n <= max_int64 ->
     http.Vars r !! "id" = Some (pretty n) -> getID r = Ok n) /\
  (forall n,
     getID r = Ok n ->
     min_int64 <= n <= max_int64 /\
     exists idStr, http.Vars r !! "id" = Some idStr /\ idStr <> ""%string) /\
  (http.Vars r !! "id" = None -> getID r = Err "invalid id given ").
Proof.
  unfold getID. split; [|split].
  - intros n Hn Hv. rewrite Hv.
    change (default ""%string (Some (pretty n))) with (pretty n).
    by rewrite Atoi_pretty.
  - intros n Hid.
    destruct (strconv.Atoi (default ""%string (http.Vars r !! "id"))) as [m|]
      eqn:Hatoi; [|done].
    injection Hid as ->. apply Atoi_range in Hatoi as [Hrange Hne].
    split; [done|]. destruct (http.Vars r !! "id") as [idStr|]; [eauto|done].
  - by intros ->.
Qed.

(** ** The first 72 bytes *)

(** A key of 72 bytes or more is read up to its 72nd byte. *)
Lemma key_stream_long (l t : list ascii) :
  (72 <= length l)%nat -> bcrypt.key_stream (l ++ t) = take 72 l.
Proof.
  intros Hlen. rewrite <- (take_drop 72 l) at 1. rewrite <- (assoc_L (++)).
  apply key_stream_prefix. rewrite length_take. lia.
Qed.

(** X2.  Password verification reads the first 72 bytes of the offered
    password: two passwords of 72 bytes or more that agree there are
    both accepted or both refused, for every account and every digest
    function. *)
Theorem ValidPassword_reads_72_bytes (a : Account) (pw pw' : string) :
  (72 <= String.length pw)%nat ->
  (72 <= String.length pw')%nat ->
  take 72 (list_ascii_of_string pw) = take 72 (list_ascii_of_string pw') ->
  ValidPassword a pw = ValidPassword a pw'.
Proof.
  intros Hpw Hpw' Htake.
  unfold ValidPassword, bcrypt.CompareHashAndPassword, bcrypt.bcrypt.
  rewrite !key_stream_long by by rewrite length_list_ascii_of_string.
  by rewrite Htake.
Qed.

(** X3.  The account factory.  For a password of at most 72 bytes it
    returns an account with the given names, id 0, balance 0, the
    creation time of the call, a number from 0 to 999999, and a bcrypt
    hash of cost 10 that the password verifies against; for a longer
    password it returns bcrypt's error and no account. *)
Theorem NewAccount_factory (amb : Ambient) (firstName lastName password : string) :
  ((String.length password <= 72)%nat ->
   exists a,
     NewAccount amb firstName lastName password = Ok a /\
     FirstName a = firstName /\ LastName a = lastName /\
     ID a = 0 /\ Balance a = 0 /\ CreatedAt a = now amb /\
     0 <= Number a < 1000000 /\
     ValidPassword a password = true /\
     exists hash,
       EncryptedPassword a = bcrypt.Hashed bcrypt.DefaultCost (salt amb) hash) /\
  ((72 < String.length password)%nat ->
   NewAccount amb firstName lastName password = Err bcrypt.ErrPasswordTooLong).
Proof.
  split.
  - intros Hlen. eexists. split; [by apply NewAccount_ok|].
    cbn [FirstName LastName ID Balance CreatedAt Number EncryptedPassword].
    repeat split; try done.
    + unfold Intn. apply Z.mod_pos_bound. lia.
    + unfold Intn. apply Z.mod_pos_bound. lia.
    + unfold ValidPassword, bcrypt.CompareHashAndPassword. cbn [EncryptedPassword].
      by rewrite String.eqb_refl.
    + eauto.
  - intros Hlen. unfold NewAccount, bcrypt.GenerateFromPassword.
    destruct (Z.ltb_spec 72 (Z.of_nat (String.length password))); [done|lia].
Qed.

(** ** Tokens *)

(** X4.  Every account the factory returns can be issued a token, and
    the token validates under the same secret with an accountNumber
    claim that converts back to the account's number: the bound of 2^53
    of the token round trip always holds for factory accounts. *)
Theorem factory_account_token_roundtrip (amb0 amb amb' : Ambient)
    (firstName lastName password : string) (a : Account) :
  NewAccount amb0 firstName lastName password = Ok a ->
  os.Getenv (environ amb') "JWT_SECRET" = os.Getenv (environ amb) "JWT_SECRET" ->
  exists tok token f,
    createJWT amb a = Ok tok /\
    validateJWT amb' tok = (Some token, None) /\
    jwt.Valid token = true /\
    jwt.Claims token !! "accountNumber" = Some (Float64 f) /\
    int64_of_float64 f = Number a.
Proof.
  intros Hnew Hsecret.
  assert (0 <= Number a < 1000000) as Hrange.
  { unfold NewAccount in Hnew.
    destruct (bcrypt.GenerateFromPassword _ _ _); [|done].
    injection Hnew as <-. cbn. unfold Intn. apply Z.mod_pos_bound. lia. }
  assert (Z.abs (Number a) <= 2 ^ 53) as Hsmall by lia.
  eexists _, _, _. split; [apply createJWT_issued|].
  rewrite <- Hsecret. split; [apply validateJWT_issued|].
  split; [reflexivity|]. split; [apply issued_claims_accountNumber|].
  by apply int64_of_float64_of_int.
Qed.

(** X5.  A token depends on the secret and the account's number and on
    nothing else: two accounts with one number get the same token under
    the same secret, whatever their names, ids, hashes, balances and
    creation times and whatever the time of issue.  The token declares
    HS256 and carries exactly the claims expiresAt and accountNumber. *)
Theorem createJWT_reads_number_only (amb amb' : Ambient) (a a' : Account) :
  os.Getenv (environ amb') "JWT_SECRET" = os.Getenv (environ amb) "JWT_SECRET" ->
  Number a' = Number a ->
  createJWT amb' a' = createJWT amb a /\
  exists c,
    createJWT amb a = Ok (jwt.Compact c) /\
    declared_method (jwt.dec_header c) = Some jwt.HS256 /\
    dom (jwt.dec_claims c) = {[ "expiresAt"%string; "accountNumber"%string ]}.
Proof.
  intros Hsecret Hnumber. split.
  - rewrite !createJWT_issued, Hsecret. unfold issued, issued_claims.
    by rewrite Hnumber.
  - eexists. split; [apply createJWT_issued|]. split; [reflexivity|].
    cbn [jwt.dec_claims issued]. unfold issued_claims.
    rewrite dom_fmap_L, dom_insert_L, dom_singleton_L. set_solver.
Qed.

Lemma land_lor_same (e b : Z) : Z.land (Z.lor e b) b = b.
Proof.
  apply Z.bits_inj'. intros n Hn. rewrite Z.land_spec, Z.lor_spec.
  destruct (Z.testbit e n), (Z.testbit b n); reflexivity.
Qed.

(** X6.  What [validateJWT] accepts.  A token string is accepted exactly
    when it has the three segments of a token, declares an HMAC method,
    its signature is the MAC of its first two segments under the
    secret, and the registered time claims exp, iat and nbf it carries,
    if any, hold at the time of the call. *)
Theorem validateJWT_accepts_exactly (amb : Ambient) (tokenString : jwt.tokenString) :
  succeeds (validateJWT amb tokenString) =
    match tokenString with
    | jwt.Text _ => false
    | jwt.Compact c =>
        signature_checks_out (os.Getenv (environ amb) "JWT_SECRET") c &&
        jwt.VerifyExpiresAt (jwt.dec_claims c) (now amb) &&
        jwt.VerifyIssuedAt (jwt.dec_claims c) (now amb) &&
        jwt.VerifyNotBefore (jwt.dec_claims c) (now amb)
    end.
Proof.
  destruct tokenString as [text|c]; [reflexivity|].
  destruct (signature_checks_out _ c) eqn:Hsig.
  - rewrite succeeds_checked by done. unfold jwt.MapClaims_Valid.
    destruct (jwt.VerifyExpiresAt _ _), (jwt.VerifyIssuedAt _ _),
      (jwt.VerifyNotBefore _ _); reflexivity.
  - by rewrite succeeds_false_not_checked.
Qed.

(** X7.  A token that declares an HMAC method and whose signature is
    not the MAC of its first two segments under the secret (claims
    altered after signing, or signed under another key) is not valid:
    the error carries the signature-invalid bit, and the guard answers
    permission denied to every request that bears it, before any
    account is looked up. *)
Theorem tampered_token_rejected (amb : Ambient) (c : jwt.compact) (h : Hash) :
  declared_method (jwt.dec_header c) ≫= jwt.SigningMethodHMAC = Some h ->
  jwt.dec_signature c <>
    Some (hmac h (os.Getenv (environ amb) "JWT_SECRET")
            (jwt.signing_string (jwt.seg_header c) (jwt.seg_claims c))) ->
  (exists token err,
     validateJWT amb (jwt.Compact c) = (Some token, Some err) /\
     jwt.Valid token = false /\
     Z.land (jwt.Errors err) jwt.ValidationErrorSignatureInvalid =
       jwt.ValidationErrorSignatureInvalid) /\
  forall (handlerFunc : HandlerFunc) (s : S) w r,
    http.Header r !! "x-jwt-token" = Some (jwt.Compact c) ->
    withJWTAuth handlerFunc amb s w r = Returned (s, permissionDenied w).
Proof.
  intros Hm Hsig.
  assert (signature_checks_out (os.Getenv (environ amb) "JWT_SECRET") c = false)
    as Hcheck.
  { unfold signature_checks_out. rewrite Hm. by apply bool_decide_eq_false_2. }
  split.
  - rewrite validateJWT_compact.
    destruct (declared_method (jwt.dec_header c)) as [m|]; [|done].
    cbn in Hm. rewrite Hm. cbv zeta. rewrite Hcheck.
    eexists _, _. split; [reflexivity|]. split; [reflexivity|].
    cbn [jwt.Errors]. apply land_lor_same.
  - intros handlerFunc s w r Hhdr. apply withJWTAuth_rejected.
    unfold http.Header_Get. rewrite Hhdr. cbn [default].
    by apply succeeds_false_not_checked.
Qed.

(** X8.  A token issued under one secret validates under another
    exactly when HMAC-SHA256 gives the token's signing string the same
    MAC under both. *)
Theorem token_under_another_secret (amb amb' : Ambient) (a : Account) (c : jwt.compact) :
  createJWT amb a = Ok (jwt.Compact c) ->
  succeeds (validateJWT amb' (jwt.Compact c)) =
    bool_decide
      (hmac SHA256 (os.Getenv (environ amb) "JWT_SECRET")
         (jwt.signing_string (jwt.seg_header c) (jwt.seg_claims c)) =
       hmac SHA256 (os.Getenv (environ amb') "JWT_SECRET")
         (jwt.signing_string (jwt.seg_header c) (jwt.seg_claims c))).
Proof.
  rewrite createJWT_issued. intros [= <-].
  rewrite validateJWT_compact, issued_declared_method.
  cbn [jwt.SigningMethodHMAC]. cbv zeta.
  cbn [jwt.dec_claims issued]. rewrite issued_claims_Valid.
  unfold signature_checks_out. rewrite issued_declared_method.
  cbn [mbind option_bind jwt.SigningMethodHMAC jwt.dec_signature jwt.seg_header
         jwt.seg_claims issued jwt.Errors].
  case_bool_decide as H1; case_bool_decide as H2; try reflexivity; congruence.
Qed.

(** ** The route table, by cases *)

Lemma Run_route amb (s : S) w r :
  Run amb s w r =
    match route_of (http.Path r) with
    | RLogin => makeHTTPHandleFunc handleLogin amb s w (with_vars r ∅)
    | RAccount => makeHTTPHandleFunc handleAccount amb s w (with_vars r ∅)
    | RAccountByID id =>
        withJWTAuth (makeHTTPHandleFunc handleGetAccountByID) amb s w
          (with_vars r {[ "id"%string := id ]})
    | RTransfer => makeHTTPHandleFunc handleTransfer amb s w (with_vars r ∅)
    | RNotFound => Returned (s, http.WriteHeader w http.StatusNotFound)
    end.
Proof.
  unfold Run, route_of.
  destruct (http.Path r) as [|p1 [|p2 [|p3 rest]]]; [reflexivity| | |].
  - generalize (makeHTTPHandleFunc handleLogin amb s w (with_vars r ∅)).
    generalize (makeHTTPHandleFunc handleAccount amb s w (with_vars r ∅)).
    generalize (makeHTTPHandleFunc handleTransfer amb s w (with_vars r ∅)).
    generalize (Returned (s, http.WriteHeader w http.StatusNotFound)).
    intros o404 oT oA oL.
    repeat (destruct p1 as [|[b0 b1 b2 b3 b4 b5 b6 b7] p1]; [reflexivity|];
            destruct b0; try reflexivity; destruct b1; try reflexivity;
            destruct b2; try reflexivity; destruct b3; try reflexivity;
            destruct b4; try reflexivity; destruct b5; try reflexivity;
            destruct b6; try reflexivity; destruct b7; try reflexivity).
    all: try (destruct p1; reflexivity).
  - generalize (Returned (s, http.WriteHeader w http.StatusNotFound)).
    intros o404.
    destruct (String.eqb p2 ""); cbn [negb andb].
    all: repeat (destruct p1 as [|[b0 b1 b2 b3 b4 b5 b6 b7] p1]; [reflexivity|];
            destruct b0; try reflexivity; destruct b1; try reflexivity;
            destruct b2; try reflexivity; destruct b3; try reflexivity;
            destruct b4; try reflexivity; destruct b5; try reflexivity;
            destruct b6; try reflexivity; destruct b7; try reflexivity).
    all: try (destruct p1; reflexivity).
  - generalize (Returned (s, http.WriteHeader w http.StatusNotFound)).
    intros o404.
    repeat (destruct p1 as [|[b0 b1 b2 b3 b4 b5 b6 b7] p1]; [reflexivity|];
            destruct b0; try reflexivity; destruct b1; try reflexivity;
            destruct b2; try reflexivity; destruct b3; try reflexivity;
            destruct b4; try reflexivity; destruct b5; try reflexivity;
            destruct b6; try reflexivity; destruct b7; try reflexivity).
    all: try (destruct p1; reflexivity).
Qed.

Lemma route_of_RAccount path :
  route_of path = RAccount -> path = ["account"%string].
Proof.
  unfold route_of. destruct path as [|p [|p2 [|p3 rest]]]; try done.
  - destruct (String.eqb_spec p "login"); [done|].
    destruct (String.eqb_spec p "account"); [by subst|].
    by destruct (String.eqb p "transfer").
  - by destruct (_ && _).
Qed.

Lemma route_of_RAccountByID path id :
  route_of path = RAccountByID id ->
  path = ["account"%string; id] /\ id <> ""%string.
Proof.
  unfold route_of. destruct path as [|p [|p2 [|p3 rest]]]; try done.
  - by destruct (String.eqb p "login"), (String.eqb p "account"),
      (String.eqb p "transfer").
  - destruct (String.eqb_spec p "account"); [|done].
    destruct (String.eqb_spec p2 ""); [done|]. cbn. intros [= <-]. by subst.
Qed.


(** ** The handlers, one by one *)

Lemma handleLogin_tidy : tidy (S := S) handleLogin.
Proof.
  intros amb s w r. unfold handleLogin.
  destruct (negb _); [left; eauto|].
  destruct (Decode _ _ _) as [req|]; [|left; eauto].
  destruct (GetAccountByNumber s _) as [acc|]; [|left; eauto].
  destruct (negb _); [left; eauto|].
  destruct (createJWT amb acc); [|left; eauto].
  right. eexists _, _. reflexivity.
Qed.

Lemma handleGetAccount_tidy : tidy (S := S) handleGetAccount.
Proof.
  intros amb s w r. unfold handleGetAccount.
  destruct (GetAccounts s); [|left; eauto]. right. eexists _, _. reflexivity.
Qed.







(** The guard denies, hands over, or panics at the type assertion. *)
Lemma withJWTAuth_cases (handlerFunc : HandlerFunc) amb (s : S) w r :
  withJWTAuth handlerFunc amb s w r = Returned (s, permissionDenied w) \/
  (exists token f id account,
     validateJWT amb (http.Header_Get (http.Header r) "x-jwt-token") =
       (Some token, None) /\
     jwt.Claims token !! "accountNumber" = Some (Float64 f) /\
     getID r = Ok id /\ GetAccountByID s id = Ok account /\
     Number account = int64_of_float64 f /\
     withJWTAuth handlerFunc amb s w r = handlerFunc amb s w r) \/
  (exists token id account,
     validateJWT amb (http.Header_Get (http.Header r) "x-jwt-token") =
       (Some token, None) /\
     (forall f, jwt.Claims token !! "accountNumber" <> Some (Float64 f)) /\
     getID r = Ok id /\ GetAccountByID s id = Ok account /\
     withJWTAuth handlerFunc amb s w r =
       Panicked "interface conversion: interface {} is not float64").
Proof.
  destruct (validateJWT_shape amb (http.Header_Get (http.Header r) "x-jwt-token"))
    as [(t & e & He)|(t & Ht & Hvalid)].
  - left. apply withJWTAuth_rejected. rewrite He. by destruct t.
  - rewrite (withJWTAuth_validated _ _ _ _ _ _ Ht).
    destruct (getID r) as [id|] eqn:Hid; [|by left].
    destruct (GetAccountByID s id) as [account|] eqn:Hacc; [|by left].
    destruct (jwt.Claims t !! "accountNumber") as [v|] eqn:Hclaim.
    + destruct v as [| | | |f| | |];
        try (right; right; exists t, id, account;
             split; [done|]; split; [intros f'; rewrite Hclaim; discriminate|]; done).
      destruct (Z.eqb_spec (Number account) (int64_of_float64 f)); [|by left].
      right. left. exists t, f, id, account. done.
    + right; right; exists t, id, account.
      split; [done|]. split; [intros f'; rewrite Hclaim; discriminate|]. done.
Qed.


Lemma getID_with_vars (r : http.Request) (idStr : string) :
  getID (with_vars r {[ "id"%string := idStr ]}) =
    match strconv.Atoi idStr with
    | Err _ => Err ("invalid id given " +:+ idStr)
    | Ok id => Ok id
    end.
Proof.
  unfold getID. cbn [http.Vars with_vars]. by rewrite lookup_singleton_eq.
Qed.

Lemma makeHTTPHandleFunc_store (f : apiFunc) amb (s s' : S) w w' r :
  makeHTTPHandleFunc f amb s w r = Returned (s', w') ->
  exists w0 e, f amb s w r = (s', w0, e).
Proof.
  unfold makeHTTPHandleFunc. destruct (f amb s w r) as [[s0 w0] [e|]];
    intros [= <- _]; eauto.
Qed.

Lemma handleAccount_store amb (s s' : S) w w' r e :
  handleAccount amb s w r = (s', w', e) ->
  s' = s \/
  (http.Method r = "POST"%string /\
   exists account, CreateAccount s account = Ok s').
Proof.
  unfold handleAccount.
  destruct (String.eqb_spec (http.Method r) "GET").
  { destruct (handleGetAccount_tidy amb s w r) as [[err ->]|(s0 & v & H)].
    - intros [= <- _ _]. by left.
    - unfold handleGetAccount in *. destruct (GetAccounts s); [|done].
      cbn. intros [= <- _ _]. by left. }
  destruct (String.eqb_spec (http.Method r) "POST"); [|intros [= <- _ _]; by left].
  unfold handleCreateAccount.
  destruct (Decode _ _ _) as [req|]; [|intros [= <- _ _]; by left].
  destruct (NewAccount _ _ _ _) as [account|]; [|intros [= <- _ _]; by left].
  destruct (CreateAccount s account) as [s0|] eqn:Hc; [|intros [= <- _ _]; by left].
  cbn. intros [= <- _ _]. right. eauto.
Qed.

Lemma handleGetAccountByID_store amb (s s' : S) w w' r e :
  handleGetAccountByID amb s w r = (s', w', e) ->
  s' = s \/
  (http.Method r = "DELETE"%string /\
   exists id, getID r = Ok id /\ DeleteAccount s id = Ok s').
Proof.
  unfold handleGetAccountByID.
  destruct (String.eqb_spec (http.Method r) "GET").
  { destruct (getID r) as [id|]; [|intros [= <- _ _]; by left].
    destruct (GetAccountByID s id); [|intros [= <- _ _]; by left].
    cbn. intros [= <- _ _]. by left. }
  destruct (String.eqb_spec (http.Method r) "DELETE"); [|intros [= <- _ _]; by left].
  unfold handleDeleteAccount.
  destruct (getID r) as [id|]; [|intros [= <- _ _]; by left].
  destruct (DeleteAccount s id) as [s0|] eqn:Hd; [|intros [= <- _ _]; by left].
  cbn. intros [= <- _ _]. right. eauto.
Qed.

Lemma handleLogin_store amb (s : S) w r : (handleLogin amb s w r).1.1 = s.
Proof.
  destruct (handleLogin_tidy amb s w r) as [[err ->]|(s' & v & H)]; [done|].
  unfold handleLogin in *.
  destruct (negb _); [done|]. destruct (Decode _ _ _); [|done].
  destruct (GetAccountByNumber s _); [|done]. destruct (negb _); [done|].
  by destruct (createJWT amb _).
Qed.

Lemma handleTransfer_store amb (s : S) w r : (handleTransfer amb s w r).1.1 = s.
Proof. unfold handleTransfer. by destruct (Decode _ _ _). Qed.

(** ** The server as a whole *)

(** X9.  What a request can do to the store.  When the server answers,
    the store is the one before the request, except for a POST of
    /account, whose store is the result of one [CreateAccount], and for
    a DELETE of /account/{id} that passed the guard (the token validated
    and its accountNumber claim is the number of the account with that
    id), whose store is the result of [DeleteAccount] at that id. *)
Theorem Run_store_frame (amb : Ambient) (s s' : S) (w w' : http.ResponseWriter)
    (r : http.Request) :
  Run amb s w r = Returned (s', w') ->
  s' = s \/
  (http.Path r = ["account"%string] /\ http.Method r = "POST"%string /\
   exists account, CreateAccount s account = Ok s') \/
  (exists idStr id account token f,
     http.Path r = ["account"%string; idStr] /\ http.Method r = "DELETE"%string /\
     strconv.Atoi idStr = Ok id /\
     GetAccountByID s id = Ok account /\
     validateJWT amb (http.Header_Get (http.Header r) "x-jwt-token") =
       (Some token, None) /\
     jwt.Claims token !! "accountNumber" = Some (Float64 f) /\
     Number account = int64_of_float64 f /\
     DeleteAccount s id = Ok s').
Proof.
  rewrite Run_route. destruct (route_of (http.Path r)) as [| |idStr| |] eqn:Hroute.
  - intros H. apply makeHTTPHandleFunc_store in H as (w0 & e & H).
    left. by rewrite <- (handleLogin_store amb s w (with_vars r ∅)), H.
  - intros H. apply makeHTTPHandleFunc_store in H as (w0 & e & H).
    apply handleAccount_store in H as [->|[Hm Hc]]; [by left|].
    right. left. split; [by apply route_of_RAccount|done].
  - apply route_of_RAccountByID in Hroute as [Hpath Hne].
    destruct (withJWTAuth_cases (makeHTTPHandleFunc handleGetAccountByID)
                amb s w (with_vars r {[ "id"%string := idStr ]}))
      as [->|[(token & f & id & account & Hv & Hclaim & Hid & Hacc & Hnum & ->)
             |(token & id & account & _ & _ & _ & _ & ->)]]; [| |done].
    { intros [= <- _]. by left. }
    intros H. apply makeHTTPHandleFunc_store in H as (w0 & e & H).
    apply handleGetAccountByID_store in H as [->|(Hm & id' & Hid' & Hdel)];
      [by left|].
    right. right. rewrite Hid in Hid'. injection Hid' as <-.
    rewrite getID_with_vars in Hid.
    destruct (strconv.Atoi idStr) as [id0|] eqn:Hatoi; [|done].
    injection Hid as ->.
    exists idStr, id, account, token, f. done.
  - intros H. apply makeHTTPHandleFunc_store in H as (w0 & e & H).
    left. by rewrite <- (handleTransfer_store amb s w (with_vars r ∅)), H.
  - intros [= <- _]. by left.
Qed.


Lemma route_of_by_id (idStr : string) (id : Z) :
  strconv.Atoi idStr = Ok id ->
  route_of ["account"%string; idStr] = RAccountByID idStr.
Proof.
  intros Hatoi. apply Atoi_range in Hatoi as [_ Hne]. unfold route_of.
  destruct (String.eqb_spec idStr ""); [done|]. reflexivity.
Qed.

(** The guard on the owner's request: the handler runs. *)
Lemma withJWTAuth_owner (handlerFunc : HandlerFunc) amb (s : S) w r A id :
  http.Header r !! "x-jwt-token" =
    Some (jwt.Compact (issued (os.Getenv (environ amb) "JWT_SECRET") A)) ->
  getID r = Ok id -> GetAccountByID s id = Ok A ->
  Z.abs (Number A) <= 2 ^ 53 ->
  withJWTAuth handlerFunc amb s w r = handlerFunc amb s w r.
Proof.
  intros Hhdr Hid Hacc Hsmall.
  rewrite (withJWTAuth_validated handlerFunc amb s w r
             (parsed (issued (os.Getenv (environ amb) "JWT_SECRET") A) jwt.HS256 true)).
  - rewrite Hid, Hacc. cbn [jwt.Claims parsed jwt.dec_claims issued].
    rewrite issued_claims_accountNumber, int64_of_float64_of_int by done.
    by rewrite Z.eqb_refl.
  - unfold http.Header_Get. rewrite Hhdr. apply validateJWT_issued.
Qed.

(** X11.  The owner's requests.  A request to /account/{id} that bears
    the token issued for the account stored under that id (its number
    of magnitude at most 2^53) passes the guard: a GET is answered with
    the account under 200; a DELETE with the store's result, that is
    {deleted: id} under 200 and the new store, or the store's error
    under 400 and the old store; every other method with 400 method not
    allowed. *)
Theorem owner_reads_and_deletes (amb : Ambient) (s : S) (A : Account)
    (idStr : string) (id : Z) (tok : jwt.tokenString)
    (w : http.ResponseWriter) (r : http.Request) :
  http.Path r = ["account"%string; idStr] ->
  strconv.Atoi idStr = Ok id ->
  GetAccountByID s id = Ok A ->
  Z.abs (Number A) <= 2 ^ 53 ->
  createJWT amb A = Ok tok ->
  http.Header r !! "x-jwt-token" = Some tok ->
  (http.Method r = "GET"%string ->
   Run amb s w r =
     Returned (s, fst (WriteJSON w http.StatusOK (Account_json A)))) /\
  (http.Method r = "DELETE"%string ->
   forall s', DeleteAccount s id = Ok s' ->
   Run amb s w r =
     Returned (s', fst (WriteJSON w http.StatusOK
                          (JObject [("deleted"%string, JInt id)])))) /\
  (http.Method r = "DELETE"%string ->
   forall err, DeleteAccount s id = Err err ->
   Run amb s w r =
     Returned (s, fst (WriteJSON w http.StatusBadRequest
                         (ApiError_json {| Error := err |})))) /\
  (http.Method r <> "GET"%string -> http.Method r <> "DELETE"%string ->
   Run amb s w r =
     Returned (s, fst (WriteJSON w http.StatusBadRequest
                         (ApiError_json
                            {| Error := "method not allowed " +:+ http.Method r |})))).
Proof.
  intros Hpath Hatoi Hacc Hsmall Htok Hhdr.
  rewrite createJWT_issued in Htok. injection Htok as <-.
  assert (getID (with_vars r {[ "id"%string := idStr ]}) = Ok id) as Hid.
  { by rewrite getID_with_vars, Hatoi. }
  assert (Run amb s w r =
          makeHTTPHandleFunc handleGetAccountByID amb s w
            (with_vars r {[ "id"%string := idStr ]})) as ->.
  { rewrite Run_route, Hpath, (route_of_by_id idStr id) by done.
    by apply (withJWTAuth_owner _ amb s w _ A id). }
  unfold makeHTTPHandleFunc, handleGetAccountByID, handleDeleteAccount.
  cbn [http.Method with_vars]. rewrite Hid, Hacc.
  split; [|split; [|split]].
  - by intros ->.
  - intros -> s' ->. reflexivity.
  - intros -> err ->. reflexivity.
  - intros Hget Hdel.
    destruct (String.eqb_spec (http.Method r) "GET"); [done|].
    destruct (String.eqb_spec (http.Method r) "DELETE"); [done|]. reflexivity.
Qed.

(** X12.  /login answers every method but POST, and /account every
    method but GET and POST, with status 400 and the error method not
    allowed followed by the method; the store is unchanged. *)
Theorem method_not_allowed (amb : Ambient) (s : S) (w : http.ResponseWriter)
    (r : http.Request) :
  (http.Path r = ["login"%string] -> http.Method r <> "POST"%string ->
   Run amb s w r =
     Returned (s, fst (WriteJSON w http.StatusBadRequest
                         (ApiError_json
                            {| Error := "method not allowed " +:+ http.Method r |})))) /\
  (http.Path r = ["account"%string] ->
   http.Method r <> "GET"%string -> http.Method r <> "POST"%string ->
   Run amb s w r =
     Returned (s, fst (WriteJSON w http.StatusBadRequest
                         (ApiError_json
                            {| Error := "method not allowed " +:+ http.Method r |})))).
Proof.
  split.
  - intros Hpath Hm. rewrite Run_route, Hpath. cbn [route_of String.eqb].
    unfold makeHTTPHandleFunc, handleLogin. cbn [http.Method with_vars].
    by destruct (String.eqb_spec (http.Method r) "POST").
  - intros Hpath Hget Hpost. rewrite Run_route, Hpath.
    change (route_of ["account"%string]) with RAccount.
    unfold makeHTTPHandleFunc, handleAccount. cbn [http.Method with_vars].
    destruct (String.eqb_spec (http.Method r) "GET"); [done|].
    by destruct (String.eqb_spec (http.Method r) "POST").
Qed.

(** X13.  /transfer moves no money and asks for no token: for every
    method it answers a body that is a transfer request with the same
    transfer request under 200, a missing body with 400 EOF, and it
    never changes the store. *)
Theorem transfer_echoes (amb : Ambient) (s : S) (w : http.ResponseWriter)
    (r : http.Request) :
  http.Path r = ["transfer"%string] ->
  (forall t,
     http.Body r = Some (TransferRequest_json t) ->
     min_int64 <= ToAccount t <= max_int64 ->
     min_int64 <= Amount t <= max_int64 ->
     Run amb s w r =
       Returned (s, fst (WriteJSON w http.StatusOK (TransferRequest_json t)))) /\
  (http.Body r = None ->
   Run amb s w r =
     Returned (s, fst (WriteJSON w http.StatusBadRequest
                         (ApiError_json {| Error := "EOF" |})))) /\
  (forall s' w', Run amb s w r = Returned (s', w') -> s' = s).
Proof.
  intros Hpath. rewrite Run_route, Hpath.
  change (route_of ["transfer"%string]) with RTransfer.
  unfold makeHTTPHandleFunc, handleTransfer. cbn [http.Body with_vars].
  split; [|split].
  - intros [toAccount amount] -> [Hlo1 Hhi1] [Hlo2 Hhi2]. cbn in *.
    destruct (Z.leb_spec min_int64 toAccount); [|lia].
    destruct (Z.leb_spec toAccount max_int64); [|lia].
    destruct (Z.leb_spec min_int64 amount); [|lia].
    destruct (Z.leb_spec amount max_int64); [|lia]. reflexivity.
  - by intros ->.
  - intros s' w'. destruct (Decode _ _ _); cbn; by intros [= <- _].
Qed.

(** ** Logging in and signing up *)

(** X14.  The login handler either returns an error, having written
    nothing, or writes under 200 the number of the account and a token
    issued for it; the latter exactly when the method is POST, the body
    decodes, the store has an account with the given number and the
    password verifies against its hash.  A wrong password gets the
    error not authenticated; every other method, method not allowed. *)
Theorem handleLogin_cases (amb : Ambient) (s : S) (w : http.ResponseWriter)
    (r : http.Request) :
  (exists err,
     handleLogin amb s w r = (s, w, Some err) /\
     (http.Method r <> "POST"%string ->
      err = "method not allowed " +:+ http.Method r) /\
     (forall req acc,
        http.Method r = "POST"%string ->
        Decode LoginRequest_setter (http.Body r)
          {| lq_Number := 0; lq_Password := "" |} = Ok req ->
        GetAccountByNumber s (lq_Number req) = Ok acc ->
        err = "not authenticated"%string /\
        ValidPassword acc (lq_Password req) = false)) \/
  (exists req acc tok,
     http.Method r = "POST"%string /\
     Decode LoginRequest_setter (http.Body r)
       {| lq_Number := 0; lq_Password := "" |} = Ok req /\
     GetAccountByNumber s (lq_Number req) = Ok acc /\
     ValidPassword acc (lq_Password req) = true /\
     createJWT amb acc = Ok tok /\
     handleLogin amb s w r =
       (s, fst (WriteJSON w http.StatusOK
                  (LoginResponse_json
                     {| lr_Number := Number acc; lr_Token := tok |})), None)).
Proof.
  unfold handleLogin.
  destruct (String.eqb_spec (http.Method r) "POST") as [Hm|Hm]; cbn [negb].
  2:{ left. eexists. split; [reflexivity|]. split; [done|]. by intros ?? ?. }
  destruct (Decode _ _ _) as [req|e] eqn:Hreq.
  2:{ left. eexists. split; [reflexivity|]. split; [done|]. by intros ?? _ ?. }
  destruct (GetAccountByNumber s (lq_Number req)) as [acc|e] eqn:Hacc.
  2:{ left. eexists. split; [reflexivity|]. split; [done|].
      intros ?? _ [= <-]. by rewrite Hacc. }
  destruct (ValidPassword acc (lq_Password req)) eqn:Hpw; cbn [negb].
  2:{ left. eexists. split; [reflexivity|]. split; [done|].
      intros ?? _ [= <-]. rewrite Hacc. by intros [= <-]. }
  right. rewrite createJWT_issued. eexists _, _, _.
  repeat (split; [done|]). reflexivity.
Qed.

(** X15.  Logging in and reading one's account.  A POST of /login with
    the number of a stored account and its password is answered under
    200 with a token; that token validates, and a GET of /account/{id}
    that bears it, at the id of that account, is answered with the
    account. *)
Theorem login_token_opens_account (amb : Ambient) (s : S)
    (w w' : http.ResponseWriter) (r r' : http.Request)
    (req : LoginRequest) (acc : Account) (tok : jwt.tokenString)
    (idStr : string) (id : Z) :
  http.Path r = ["login"%string] ->
  http.Method r = "POST"%string ->
  Decode LoginRequest_setter (http.Body r)
    {| lq_Number := 0; lq_Password := "" |} = Ok req ->
  GetAccountByNumber s (lq_Number req) = Ok acc ->
  ValidPassword acc (lq_Password req) = true ->
  createJWT amb acc = Ok tok ->
  Run amb s w r =
    Returned (s, fst (WriteJSON w http.StatusOK
                        (LoginResponse_json
                           {| lr_Number := Number acc; lr_Token := tok |}))) /\
  succeeds (validateJWT amb tok) = true /\
  (Z.abs (Number acc) <= 2 ^ 53 ->
   http.Path r' = ["account"%string; idStr] ->
   http.Method r' = "GET"%string ->
   strconv.Atoi idStr = Ok id ->
   GetAccountByID s id = Ok acc ->
   http.Header r' !! "x-jwt-token" = Some tok ->
   Run amb s w' r' =
     Returned (s, fst (WriteJSON w' http.StatusOK (Account_json acc)))).
Proof.
  intros Hpath Hm Hreq Hacc Hpw Htok.
  rewrite createJWT_issued in Htok. injection Htok as <-.
  split; [|split].
  - rewrite Run_route, Hpath. change (route_of ["login"%string]) with RLogin.
    unfold makeHTTPHandleFunc, handleLogin. cbn [http.Method http.Body with_vars].
    rewrite Hm, Hreq, Hacc, Hpw. reflexivity.
  - by rewrite validateJWT_issued.
  - intros Hsmall Hpath' Hm' Hatoi Hid Hhdr.
    rewrite Run_route, Hpath', (route_of_by_id idStr id) by done.
    assert (getID (with_vars r' {[ "id"%string := idStr ]}) = Ok id) as Hget.
    { by rewrite getID_with_vars, Hatoi. }
    rewrite (withJWTAuth_owner _ amb s w' _ acc id) by done.
    unfold makeHTTPHandleFunc, handleGetAccountByID. cbn [http.Method with_vars].
    by rewrite Hm', Hget, Hid.
Qed.



(** ** Seeding *)

(** X17.  Seeding.  [seedAccount] stores the account the factory makes
    for the given names and password and returns it, and the password
    verifies against it; it is fatal when the store refuses the
    account, and when the password is longer than 72 bytes, in which
    case the store is not called.  The password of the account that
    [seedAccounts] seeds is short enough: seeding is fatal only when
    the store refuses the account. *)
Theorem seeding_fails_only_in_the_store (amb : Ambient) (s : S)
    (fname lname pw : string) :
  ((String.length pw <= 72)%nat ->
   exists acc,
     NewAccount amb fname lname pw = Ok acc /\
     FirstName acc = fname /\ LastName acc = lname /\
     ValidPassword acc pw = true /\
     seedAccount amb s fname lname pw =
       match CreateAccount s acc with
       | Ok s' => Continues (s', acc)
       | Err err => Fatal err
       end) /\
  ((72 < String.length pw)%nat ->
   seedAccount amb s fname lname pw = Fatal bcrypt.ErrPasswordTooLong) /\
  (forall s',
     seedAccounts amb s = Continues s' ->
     exists acc,
       CreateAccount s acc = Ok s' /\
       FirstName acc = "anthony"%string /\ LastName acc = "GG"%string /\
       0 <= Number acc < 1000000 /\
       ValidPassword acc "hunter88888" = true) /\
  (forall err,
     seedAccounts amb s = Fatal err ->
     exists acc,
       NewAccount amb "anthony" "GG" "hunter88888" = Ok acc /\
       CreateAccount s acc = Err err).
Proof.
  assert (forall f l p,
            (String.length p <= 72)%nat ->
            exists acc,
              NewAccount amb f l p = Ok acc /\
              FirstName acc = f /\ LastName acc = l /\
              0 <= Number acc < 1000000 /\
              ValidPassword acc p = true) as Hnew.
  { intros f l p Hlen. eexists. split; [by apply NewAccount_ok|].
    cbn [FirstName LastName Number]. split; [done|]. split; [done|].
    split; [unfold Intn; apply Z.mod_pos_bound; lia|].
    unfold ValidPassword, bcrypt.CompareHashAndPassword. cbn [EncryptedPassword].
    by rewrite String.eqb_refl. }
  split; [|split; [|split]].
  - intros Hlen. destruct (Hnew fname lname pw Hlen) as (acc & Hacc & Hf & Hl & _ & Hpw).
    exists acc. unfold seedAccount. rewrite Hacc.
    repeat (split; [done|]). by destruct (CreateAccount s acc).
  - intros Hlen. unfold seedAccount, NewAccount, bcrypt.GenerateFromPassword.
    destruct (Z.ltb_spec 72 (Z.of_nat (String.length pw))); [done|lia].
  - intros s'. unfold seedAccounts, seedAccount.
    destruct (Hnew "anthony" "GG" "hunter88888")%string
      as (acc & -> & Hf & Hl & Hn & Hpw); [cbn; lia|].
    destruct (CreateAccount s acc) as [s0|] eqn:Hc; [|done].
    intros [= <-]. by exists acc.
  - intros err. unfold seedAccounts, seedAccount.
    destruct (Hnew "anthony" "GG" "hunter88888")%string
      as (acc & -> & _); [cbn; lia|].
    destruct (CreateAccount s acc) as [s0|] eqn:Hc; [done|].
    intros [= <-]. by exists acc.
Qed.

End more_properties.

(** * Runs on concrete inputs *)

Module Scenario.
Import Transparent.

Definition amb : Ambient :=
  {| environ := {[ "JWT_SECRET"%string := "gobank-secret"%string ]};
     now := 1700000000;
     salt := "N9qo8uLOickgx2ZMRZoMye";
     rnd := 123456789 |}.

(** The same, with no secret in the environment. *)
Definition amb_no_secret : Ambient :=
  {| environ := ∅; now := now amb; salt := salt amb; rnd := rnd amb |}.

Definition account (id number : Z) : Account :=
  {| ID := id; FirstName := "anthony"; LastName := "GG"; Number := number;
     EncryptedPassword := bcrypt.NotAHash ""; Balance := 0; CreatedAt := 0 |}.

Definition store_of (l : list Account) : MemStore :=
  {| rows := list_to_map ((fun a => (ID a, a)) <$> l);
     next_id := 1 + Z.of_nat (length l) |}.

(** A request to [/account/{id}]. *)
Definition request (method id : string) (token : option jwt.tokenString)
    : http.Request :=
  {| http.Method := method;
     http.Path := ["account"%string; id];
     http.Vars := {[ "id"%string := id ]};
     http.Header := match token with
                    | Some t => {[ "x-jwt-token"%string := t ]}
                    | None => ∅
                    end;
     http.Body := None |}.

(** Accounts A (number 42, id 1) and B (number 99, id 2). *)
Definition A : Account := account 1 42.
Definition B : Account := account 2 99.
Definition store : MemStore := store_of [A; B].

(** Accounts whose numbers no float64 tells apart. *)
Definition A' : Account := account 1 9007199254740993.
Definition B' : Account := account 2 9007199254740992.
Definition store' : MemStore := store_of [A'; B'].

Definition token_for (a : Account) : jwt.tokenString :=
  jwt.Compact (issued "gobank-secret" a).

(** A token string signed with the secret over any claims. *)
Definition signed (claims : gmap string any) : jwt.tokenString :=
  match jwt.SignedString
          (jwt.NewWithClaims jwt.HS256 claims) "gobank-secret" with
  | Ok t => t
  | Err _ => jwt.Text ""
  end.

Definition token_without_number : jwt.tokenString :=
  signed {[ "expiresAt" := Int 15000 ]}.

Definition token_expired : jwt.tokenString :=
  signed {[ "exp" := Int 1; "expiresAt" := Int 15000;
            "accountNumber" := Int64 42 ]}.

Definition token_other_expiry : jwt.tokenString :=
  signed {[ "expiresAt" := Int 1; "accountNumber" := Int64 42 ]}.

(** A's claims under a header that declares the method [none]. *)
Definition unsigned : jwt.compact :=
  {| jwt.seg_header := "";
     jwt.seg_claims := "";
     jwt.dec_header := {[ "typ" := Str "JWT"; "alg" := Str "none" ]};
     jwt.dec_claims := issued_claims A;
     jwt.dec_signature := Some ""%string |}.

Definition compact_of (t : jwt.tokenString) : jwt.compact :=
  match t with
  | jwt.Compact c => c
  | jwt.Text _ => unsigned
  end.

(** A password of 72 bytes. *)
Definition p72 : string := string_of_list_ascii (replicate 72 "a"%char).

Definition create_request : http.Request :=
  {| http.Method := "POST";
     http.Path := ["account"%string];
     http.Vars := ∅;
     http.Header := ∅;
     http.Body := Some (JObject [("firstName", JString "anthony");
                                 ("lastName", JString "GG");
                                 ("password", JString "hunter88888")]%string) |}.

Definition list_request : http.Request :=
  {| http.Method := "GET"; http.Path := ["account"%string]; http.Vars := ∅;
     http.Header := ∅; http.Body := None |}.

Definition byID : HandlerFunc (S := MemStore) :=
  makeHTTPHandleFunc handleGetAccountByID.

(** The store and the response a run ends with. *)
Definition store_after (o : outcome (MemStore * http.ResponseWriter)) : MemStore :=
  match o with
  | Returned (s, _) => s
  | Panicked _ => empty_store
  end.

Definition response (o : outcome (MemStore * http.ResponseWriter))
    : http.ResponseWriter :=
  match o with
  | Returned (_, w) => w
  | Panicked _ => http.blank
  end.

Definition created : Account :=
  {| ID := 1; FirstName := "anthony"; LastName := "GG"; Number := 456789;
     EncryptedPassword :=
       bcrypt.Hashed 10 (salt amb) (bcrypt.bcrypt "hunter88888" 10 (salt amb));
     Balance := 0; CreatedAt := now amb |}.

End Scenario.

(** Further inputs: logging in, another secret, a transfer. *)
Module Sessions.
Import Transparent Scenario.

(** The account the factory makes for the seed data. *)
Definition seeded : Account :=
  {| ID := 0; FirstName := "anthony"; LastName := "GG"; Number := 456789;
     EncryptedPassword :=
       bcrypt.Hashed 10 (salt amb) (bcrypt.bcrypt "hunter88888" 10 (salt amb));
     Balance := 0; CreatedAt := now amb |}.

(** The environment with another secret. *)
Definition amb_rotated : Ambient :=
  {| environ := {[ "JWT_SECRET"%string := "rotated"%string ]};
     now := now amb; salt := salt amb; rnd := rnd amb |}.

Definition login_request (number : Z) (password : string) : http.Request :=
  {| http.Method := "POST";
     http.Path := ["login"%string];
     http.Vars := ∅;
     http.Header := ∅;
     http.Body := Some (JObject [("number", JInt number);
                                 ("password", JString password)]%string) |}.

Definition transfer_request (t : TransferRequest) : http.Request :=
  {| http.Method := "PUT";
     http.Path := ["transfer"%string];
     http.Vars := ∅;
     http.Header := ∅;
     http.Body := Some (TransferRequest_json t) |}.

(** A store that holds the account [created] under id 1. *)
Definition store1 : MemStore := store_of [created].

End Sessions.

Import Transparent Scenario.

(** C1, on the spec's example: with A (number 42, id 1) and B (number 99,
    id 2) stored, A's token is denied at id 2 and admitted at id 1. *)
Lemma ownership_enforcement_witness :
  denies amb store http.blank
    (request "GET" "2" (Some (token_for A))) /\
  admits amb store http.blank
    (request "GET" "1" (Some (token_for A))).
Proof.
  split.
  - apply (ownership_enforcement
             amb store A B 1 2 (token_for A) http.blank
             (request "GET" "2" (Some (token_for A))));
      try (vm_compute; reflexivity); vm_compute; congruence.
  - apply (ownership_enforcement
             amb store A B 1 2 (token_for A) http.blank
             (request "GET" "1" (Some (token_for A))));
      try (vm_compute; reflexivity); vm_compute; congruence.
Defined.

(** C1 fails as stated: A' (number 2^53 + 1, id 1) and B' (number 2^53,
    id 2) have distinct numbers, yet the token issued for A' is denied
    at A's own id and admitted at B's.  The claim of the token is the
    float64 nearest to A's number, which is B's number. *)
Lemma ownership_crosses_past_2_53 :
  createJWT amb A' = Ok (token_for A') /\
  Number A' <> Number B' /\
  denies amb store' http.blank
    (request "GET" "1" (Some (token_for A'))) /\
  admits amb store' http.blank
    (request "GET" "2" (Some (token_for A'))).
Proof.
  split; [reflexivity|]. split; [vm_compute; congruence|].
  split; intros h.
  - rewrite (withJWTAuth_validated h amb store' http.blank _
               (parsed (issued "gobank-secret" A') jwt.HS256 true))
      by (vm_compute; reflexivity).
    vm_compute. reflexivity.
  - rewrite (withJWTAuth_validated h amb store' http.blank _
               (parsed (issued "gobank-secret" A') jwt.HS256 true))
      by (vm_compute; reflexivity).
    vm_compute. reflexivity.
Qed.


(** C3 (as amended), on two requests: a DELETE of [/account/1] with no
    token is denied and the store kept; a GET of [/account] is answered
    the same with A's token and without. *)
Lemma account_routes_gating_witness :
  Run amb store http.blank (request "DELETE" "1" None) =
    Returned (store, permissionDenied http.blank) /\
  Run amb store http.blank (with_header list_request {[ "x-jwt-token"%string := token_for A ]}) =
    Run amb store http.blank list_request.
Proof.
  split.
  - apply (proj1 (account_routes_gating amb store http.blank
                    (request "DELETE" "1" None)) "1"%string);
      [reflexivity | discriminate | vm_compute; reflexivity].
  - apply (proj2 (account_routes_gating amb store http.blank list_request)).
    reflexivity.
Defined.

(** C3 fails as stated: a POST and a GET of [/account] that carry no
    header at all are served.  The POST stores an account under id 1 in a
    store that had none and answers 200; the GET answers 200 with the
    stored accounts. *)
Lemma create_and_list_run_without_token :
  http.Header create_request = ∅ /\
  http.Header list_request = ∅ /\
  http.status (response (Run amb empty_store http.blank create_request)) = Some 200 /\
  GetAccountByID (store_after (Run amb empty_store http.blank create_request)) 1 =
    Ok created /\
  GetAccountByID empty_store 1 = Err (not_found "id" 1) /\
  Run amb (store_of [created]) http.blank list_request =
    Returned (store_of [created],
              fst (WriteJSON http.blank 200 (JArray [Account_json created]))).
Proof.
  repeat split; vm_compute; reflexivity.
Qed.

(** C4 (as amended), on A: the validated claim is 42. *)
Lemma token_roundtrip_witness :
  exists tok token,
    createJWT amb A = Ok tok /\
    validateJWT amb tok = (Some token, None) /\
    jwt.Valid token = true /\
    jwt.Claims token !! "accountNumber" = Some (Float64 (inject_Z 42)).
Proof.
  apply (token_roundtrip amb amb A); [reflexivity|]. vm_compute. congruence.
Defined.

(** C4 fails as stated: for A', whose number is 2^53 + 1, the issued token
    validates but its [accountNumber] claim is 2^53. *)
Lemma token_roundtrip_loses_odd_numbers_past_2_53 :
  Number A' = 2 ^ 53 + 1 /\
  createJWT amb A' = Ok (token_for A') /\
  validateJWT amb (token_for A') =
    (Some (parsed (compact_of (token_for A')) jwt.HS256 true), None) /\
  jwt.dec_claims (compact_of (token_for A')) !! "accountNumber" =
    Some (Float64 (inject_Z (2 ^ 53))).
Proof.
  repeat split; vm_compute; reflexivity.
Qed.

(** C5 (as amended), on the password of the seeded account. *)
Lemma hash_roundtrip_witness :
  exists a,
    NewAccount amb "anthony" "GG" "hunter88888" = Ok a /\
    ValidPassword a "hunter88888" = true /\
    ((String.length "hunter88888" <= 71)%nat ->
     ValidPassword a "hunter88888x" = false \/
     digest_collision bcrypt.DefaultCost (salt amb)
       (bcrypt.key_stream (list_ascii_of_string "hunter88888" ++ [Ascii.zero]))
       (bcrypt.key_stream (list_ascii_of_string "hunter88888x" ++ [Ascii.zero]))) /\
    (forall pw,
       ValidPassword a pw = true <->
       bcrypt.bcrypt pw bcrypt.DefaultCost (salt amb) =
       bcrypt.bcrypt "hunter88888" bcrypt.DefaultCost (salt amb)).
Proof.
  apply (hash_roundtrip amb "anthony" "GG" "hunter88888"). vm_compute. lia.
Defined.

(** C5 fails as stated: for a password of 72 bytes, the password with an
    "x" appended verifies against the hash.  (It does for every digest
    function: [bcrypt_ignores_past_72].) *)
Lemma hash_roundtrip_fails_at_72_bytes :
  String.length p72 = 72%nat /\
  exists a,
    NewAccount amb "anthony" "GG" p72 = Ok a /\
    ValidPassword a (p72 +:+ "x") = true.
Proof.
  split; [reflexivity|]. eexists. split; [reflexivity|]. vm_compute. reflexivity.
Qed.

(** C6 (as amended), on A's token and on one whose [expiresAt] is 1: both
    are accepted. *)
Lemma expiry_is_advisory_witness :
  succeeds (validateJWT amb (token_for A)) =
    succeeds (validateJWT amb token_other_expiry) /\
  succeeds (validateJWT amb (token_for A)) = true.
Proof.
  split.
  - apply (proj1 (proj2 (expiry_is_advisory amb))
             (compact_of (token_for A)) (compact_of token_other_expiry));
      [vm_compute; reflexivity | vm_compute; reflexivity |].
    intros k Hk. cbn [compact_of token_for token_other_expiry signed
                      jwt.SignedString jwt.NewWithClaims jwt.Method jwt.Sign
                      jwt.SigningMethodHMAC jwt.dec_claims issued jwt.Claims].
    unfold issued_claims. rewrite !lookup_fmap, !lookup_insert_ne by done.
    reflexivity.
  - apply (proj2 (proj2 (expiry_is_advisory amb)) (compact_of (token_for A)));
      vm_compute; reflexivity.
Defined.

(** C6 fails as stated: a token signed with the secret under HS256 whose
    claims hold [exp] = 1 beside [expiresAt] = 15000 is rejected as
    expired, although its signature and algorithm check out. *)
Lemma registered_expiry_is_enforced :
  jwt.SignedString
    (jwt.NewWithClaims jwt.HS256
       {[ "exp" := Int 1; "expiresAt" := Int 15000; "accountNumber" := Int64 42 ]})
    (os.Getenv (environ amb) "JWT_SECRET") = Ok token_expired /\
  signature_checks_out (os.Getenv (environ amb) "JWT_SECRET")
    (compact_of token_expired) = true /\
  succeeds (validateJWT amb token_expired) = false /\
  jwt.Errors <$> (validateJWT amb token_expired).2 = Some jwt.ValidationErrorExpired.
Proof.
  repeat split; vm_compute; reflexivity.
Qed.

(** C7, on A's claims under a header that declares the method [none]. *)
Lemma algorithm_confusion_rejected_witness :
  exists token err,
    validateJWT amb (jwt.Compact unsigned) = (Some token, Some err) /\
    jwt.Errors err = jwt.ValidationErrorUnverifiable /\
    jwt.Valid token = false /\
    succeeds (validateJWT amb (jwt.Compact unsigned)) = false /\
    (forall m, declared_method (jwt.dec_header unsigned) = Some m ->
       jwt.Inner err = Some ("Unexpected signing method: " +:+ jwt.Alg m)).
Proof.
  apply (algorithm_confusion_rejected amb unsigned). vm_compute. reflexivity.
Defined.

(** C8 (as amended), with no secret in the environment. *)
Lemma empty_secret_is_a_key_witness :
  exists c token,
    createJWT amb_no_secret A = Ok (jwt.Compact c) /\
    jwt.dec_signature c =
      Some (hmac SHA256 "" (jwt.signing_string (jwt.seg_header c) (jwt.seg_claims c))) /\
    validateJWT amb_no_secret (jwt.Compact c) = (Some token, None) /\
    jwt.Valid token = true.
Proof.
  apply (empty_secret_is_a_key amb_no_secret A). left. vm_compute. reflexivity.
Defined.

(** C8 fails as stated: with no [JWT_SECRET] in the environment a token is
    issued, signed with the empty key, and it validates. *)
Lemma empty_secret_signs_and_validates :
  environ amb_no_secret !! "JWT_SECRET" = None /\
  createJWT amb_no_secret A = Ok (jwt.Compact (issued "" A)) /\
  succeeds (validateJWT amb_no_secret (jwt.Compact (issued "" A))) = true.
Proof.
  repeat split; vm_compute; reflexivity.
Qed.

(** C9, on two stores that hold A with different credentials: fetching
    id 1 writes the same response. *)
Lemma hashed_credential_not_serialized_witness :
  (handleGetAccountByID amb
     (store_of [with_password A (bcrypt.Hashed 10 "salt" "digest")])
     http.blank (request "GET" "1" None)).1.2 =
  (handleGetAccountByID amb (store_of [A]) http.blank (request "GET" "1" None)).1.2.
Proof.
  apply (proj1 (proj2 (hashed_credential_not_serialized amb http.blank))
           (store_of [A])
           (store_of [with_password A (bcrypt.Hashed 10 "salt" "digest")])
           (request "GET" "1" None) 1 A
           (with_password A (bcrypt.Hashed 10 "salt" "digest")));
    vm_compute; reflexivity.
Defined.

(** C10 (as amended): a token signed with the secret that has no
    [accountNumber] makes the guard panic at A's id; A's own token makes
    it deny or hand over. *)
Lemma guard_totality_witness :
  withJWTAuth byID amb store http.blank
    (request "GET" "1" (Some token_without_number)) =
    Panicked "interface conversion: interface {} is not float64" /\
  (withJWTAuth byID amb store http.blank (request "GET" "1" (Some (token_for A))) =
     Returned (store, permissionDenied http.blank) \/
   withJWTAuth byID amb store http.blank (request "GET" "1" (Some (token_for A))) =
     byID amb store http.blank (request "GET" "1" (Some (token_for A)))).
Proof.
  split.
  - assert (validateJWT amb
              (http.Header_Get
                 (http.Header (request "GET" "1" (Some token_without_number)))
                 "x-jwt-token") =
            (Some (parsed (compact_of token_without_number) jwt.HS256 true), None))
      as Hv by (vm_compute; reflexivity).
    assert (forall f,
              jwt.Claims (parsed (compact_of token_without_number) jwt.HS256 true)
                !! "accountNumber" <> Some (Float64 f))
      as Hno by (intros f; vm_compute; discriminate).
    apply (proj1 (proj1 (guard_totality byID amb store http.blank
                    (request "GET" "1" (Some token_without_number))) _ Hv Hno)
             1 A);
      vm_compute; reflexivity.
  - apply (proj2 (guard_totality byID amb store http.blank
                    (request "GET" "1" (Some (token_for A))))).
    intros token Hv. exists (inject_Z 42).
    assert (validateJWT amb
              (http.Header_Get (http.Header (request "GET" "1" (Some (token_for A))))
                 "x-jwt-token") =
            (Some (parsed (compact_of (token_for A)) jwt.HS256 true), None)) as Hv'
      by (vm_compute; reflexivity).
    rewrite Hv' in Hv. injection Hv as <-. vm_compute. reflexivity.
Defined.

(** C10 fails as stated: the same token without [accountNumber], which
    validates, is denied, not a panic, when the path id has no account
    (id 7) or is no number ("seven"). *)
Lemma guard_denies_before_the_assertion :
  validateJWT amb token_without_number =
    (Some (parsed (compact_of token_without_number) jwt.HS256 true), None) /\
  jwt.dec_claims (compact_of token_without_number) !! "accountNumber" = None /\
  GetAccountByID store 7 = Err (not_found "id" 7) /\
  withJWTAuth byID amb store http.blank
    (request "GET" "7" (Some token_without_number)) =
    Returned (store, permissionDenied http.blank) /\
  withJWTAuth byID amb store http.blank
    (request "GET" "seven" (Some token_without_number)) =
    Returned (store, permissionDenied http.blank).
Proof.
  repeat split; vm_compute; reflexivity.
Qed.

(** * Further runs on concrete inputs *)

Import Sessions.

(** X1, on the id 42 and on a request with no id. *)
Lemma getID_reads_decimal_witness :
  getID (request "GET" (pretty 42) None) = Ok 42 /\
  getID list_request = Err "invalid id given ".
Proof.
  split.
  - apply (proj1 (getID_reads_decimal (request "GET" (pretty 42) None)) 42);
      [vm_compute; split; congruence | vm_compute; reflexivity].
  - apply (proj2 (proj2 (getID_reads_decimal list_request))).
    vm_compute; reflexivity.
Defined.

(** X2, on two passwords of 76 and 77 bytes with the same first 72. *)
Lemma ValidPassword_reads_72_bytes_witness :
  ValidPassword seeded (p72 +:+ "left") = ValidPassword seeded (p72 +:+ "right").
Proof.
  apply (ValidPassword_reads_72_bytes seeded (p72 +:+ "left") (p72 +:+ "right"));
    [vm_compute; lia | vm_compute; lia | vm_compute; reflexivity].
Defined.

(** X3, on the seed data and on a password of 73 bytes. *)
Lemma NewAccount_factory_witness :
  NewAccount amb "anthony" "GG" "hunter88888" = Ok seeded /\
  NewAccount amb "anthony" "GG" (p72 +:+ "x") = Err bcrypt.ErrPasswordTooLong.
Proof.
  split.
  - destruct (proj1 (NewAccount_factory amb "anthony" "GG" "hunter88888"))
      as (a & Ha & _); [vm_compute; lia|].
    rewrite Ha. vm_compute in Ha. by injection Ha as <-.
  - apply (proj2 (NewAccount_factory amb "anthony" "GG" (p72 +:+ "x"))).
    vm_compute. lia.
Defined.

(** X4, on the account the factory makes for the seed data. *)
Lemma factory_account_token_roundtrip_witness :
  exists tok token f,
    createJWT amb seeded = Ok tok /\
    validateJWT amb tok = (Some token, None) /\
    jwt.Valid token = true /\
    jwt.Claims token !! "accountNumber" = Some (Float64 f) /\
    int64_of_float64 f = Number seeded.
Proof.
  apply (factory_account_token_roundtrip amb amb amb "anthony" "GG" "hunter88888");
    vm_compute; reflexivity.
Defined.

(** X5, on A and on an account with id 7 and A's number. *)
Lemma createJWT_reads_number_only_witness :
  createJWT amb (account 7 42) = createJWT amb A.
Proof.
  apply (createJWT_reads_number_only amb amb A (account 7 42)); reflexivity.
Defined.

(** X7, on a token for A signed under another key. *)
Lemma tampered_token_rejected_witness :
  exists token err,
    validateJWT amb (jwt.Compact (issued "another" A)) = (Some token, Some err) /\
    jwt.Valid token = false /\
    Z.land (jwt.Errors err) jwt.ValidationErrorSignatureInvalid =
      jwt.ValidationErrorSignatureInvalid.
Proof.
  apply (tampered_token_rejected (S := MemStore) amb (issued "another" A) SHA256).
  - vm_compute; reflexivity.
  - vm_compute. discriminate.
Defined.

(** X8, on A's token after the secret was changed. *)
Lemma token_under_another_secret_witness :
  succeeds (validateJWT amb_rotated (token_for A)) = false.
Proof.
  rewrite (token_under_another_secret amb amb_rotated A (compact_of (token_for A)));
    [|reflexivity].
  vm_compute. reflexivity.
Defined.

(** X9, on the sign-up request sent to the empty store. *)
Lemma Run_store_frame_witness :
  store1 = empty_store \/
  (http.Path create_request = ["account"%string] /\
   http.Method create_request = "POST"%string /\
   exists account, CreateAccount empty_store account = Ok store1) \/
  (exists idStr id account token f,
     http.Path create_request = ["account"%string; idStr] /\
     http.Method create_request = "DELETE"%string /\
     strconv.Atoi idStr = Ok id /\
     GetAccountByID empty_store id = Ok account /\
     validateJWT amb (http.Header_Get (http.Header create_request) "x-jwt-token") =
       (Some token, None) /\
     jwt.Claims token !! "accountNumber" = Some (Float64 f) /\
     Number account = int64_of_float64 f /\
     DeleteAccount empty_store id = Ok store1).
Proof.
  apply (Run_store_frame amb empty_store store1 http.blank
           (fst (WriteJSON http.blank 200 (Account_json seeded))) create_request).
  vm_compute. reflexivity.
Defined.

(** X11, on A reading and then deleting the account under id 1. *)
Lemma owner_reads_and_deletes_witness :
  Run amb store http.blank (request "GET" "1" (Some (token_for A))) =
    Returned (store, fst (WriteJSON http.blank http.StatusOK (Account_json A))) /\
  Run amb store http.blank (request "DELETE" "1" (Some (token_for A))) =
    Returned (store_after (Run amb store http.blank
                             (request "DELETE" "1" (Some (token_for A)))),
              fst (WriteJSON http.blank http.StatusOK
                     (JObject [("deleted"%string, JInt 1)]))) /\
  GetAccountByID (store_after (Run amb store http.blank
                                 (request "DELETE" "1" (Some (token_for A))))) 1 =
    Err (not_found "id" 1).
Proof.
  assert (Z.abs (Number A) <= 2 ^ 53) as Hsmall by (vm_compute; congruence).
  split; [|split].
  - destruct (owner_reads_and_deletes amb store A "1" 1 (token_for A)
                http.blank (request "GET" "1" (Some (token_for A))))
      as (Hget & _);
      [vm_compute; reflexivity | vm_compute; reflexivity | vm_compute; reflexivity
      | done | vm_compute; reflexivity | vm_compute; reflexivity |].
    by apply Hget.
  - destruct (owner_reads_and_deletes amb store A "1" 1 (token_for A)
                http.blank (request "DELETE" "1" (Some (token_for A))))
      as (_ & Hdel & _);
      [vm_compute; reflexivity | vm_compute; reflexivity | vm_compute; reflexivity
      | done | vm_compute; reflexivity | vm_compute; reflexivity |].
    apply Hdel; vm_compute; reflexivity.
  - vm_compute. reflexivity.
Defined.

(** X12, on a GET of /login. *)
Lemma method_not_allowed_witness :
  Run amb store http.blank
    {| http.Method := "GET"; http.Path := ["login"%string]; http.Vars := ∅;
       http.Header := ∅; http.Body := None |} =
    Returned (store, fst (WriteJSON http.blank http.StatusBadRequest
                            (ApiError_json {| Error := "method not allowed GET" |}))).
Proof.
  apply (proj1 (method_not_allowed amb store http.blank
                  {| http.Method := "GET"; http.Path := ["login"%string];
                     http.Vars := ∅; http.Header := ∅; http.Body := None |}));
    [reflexivity|discriminate].
Defined.

(** X13, on a PUT of /transfer with no token. *)
Lemma transfer_echoes_witness :
  Run amb store http.blank (transfer_request {| ToAccount := 99; Amount := 500 |}) =
    Returned (store,
              fst (WriteJSON http.blank http.StatusOK
                     (TransferRequest_json {| ToAccount := 99; Amount := 500 |}))).
Proof.
  apply (proj1 (transfer_echoes amb store http.blank
                  (transfer_request {| ToAccount := 99; Amount := 500 |}) eq_refl)
           {| ToAccount := 99; Amount := 500 |});
    [reflexivity | vm_compute; split; congruence | vm_compute; split; congruence].
Defined.

(** X15, on the account created by the sign-up request. *)
Lemma login_token_opens_account_witness :
  Run amb store1 http.blank (login_request 456789 "hunter88888") =
    Returned (store1,
              fst (WriteJSON http.blank http.StatusOK
                     (LoginResponse_json
                        {| lr_Number := Number created;
                           lr_Token := token_for created |}))) /\
  Run amb store1 http.blank (request "GET" "1" (Some (token_for created))) =
    Returned (store1,
              fst (WriteJSON http.blank http.StatusOK (Account_json created))).
Proof.
  assert (Decode LoginRequest_setter
            (http.Body (login_request 456789 "hunter88888"))
            {| lq_Number := 0; lq_Password := "" |} =
          Ok {| lq_Number := 456789; lq_Password := "hunter88888" |}) as Hreq
    by (vm_compute; reflexivity).
  assert (GetAccountByNumber store1 456789 = Ok created) as Hacc
    by (vm_compute; reflexivity).
  assert (ValidPassword created "hunter88888" = true) as Hpw
    by (vm_compute; reflexivity).
  assert (createJWT amb created = Ok (token_for created)) as Htok
    by reflexivity.
  destruct (login_token_opens_account amb store1 http.blank http.blank
              (login_request 456789 "hunter88888")
              (request "GET" "1" (Some (token_for created)))
              {| lq_Number := 456789; lq_Password := "hunter88888" |}
              created (token_for created) "1" 1 eq_refl eq_refl Hreq Hacc Hpw Htok)
    as (Hlogin & _ & Hfetch).
  split; [exact Hlogin|].
  apply Hfetch; [vm_compute; congruence | reflexivity | reflexivity
                | vm_compute; reflexivity | vm_compute; reflexivity
                | vm_compute; reflexivity].
Defined.


(** X17, on the seed data and on a password of 73 bytes, with the store
    in memory. *)
Lemma seeding_fails_only_in_the_store_witness :
  exists acc,
    seedAccount amb empty_store "anthony" "GG" "hunter88888" =
      Continues (store_of [with_ID acc 1], acc) /\
    ValidPassword acc "hunter88888" = true /\
    seedAccount amb empty_store "anthony" "GG" (p72 +:+ "x") =
      Fatal bcrypt.ErrPasswordTooLong.
Proof.
  destruct (seeding_fails_only_in_the_store amb empty_store "anthony" "GG" "hunter88888")
    as (Hshort & _).
  destruct (seeding_fails_only_in_the_store amb empty_store "anthony" "GG" (p72 +:+ "x"))
    as (_ & Hlong & _).
  destruct Hshort as (acc & Hnew & _ & _ & Hpw & Hseed); [vm_compute; lia|].
  exists acc. split; [|split; [exact Hpw|apply Hlong; vm_compute; lia]].
  rewrite Hseed. vm_compute in Hnew. injection Hnew as <-. vm_compute. reflexivity.
Defined.
